(** * copy-docker-image: a shallow embedding of [main.go]

    The program copies one image (manifest and layers) from a source
    registry to a destination registry.  Its four functions
    ([moveLayerUsingFile], [migrateLayer], [connectToRegistry], [main]) are
    embedded as programs of a small free monad whose nodes are the calls the
    Go code makes to its collaborators (registry client, AWS SDK, [os], [io],
    [fmt]).  An interpreter runs a program against an arbitrary handler for
    those calls and records every call together with its answer, so that the
    properties below hold for every behaviour of the collaborators. *)

From stdpp Require Import base list strings.
From Stdlib Require Import ZArith Ascii Bool Lia.

Local Open Scope string_scope.
Local Open Scope list_scope.

(** ** Strings *)

(** Go strings are byte sequences; [string] is a list of 8-bit [ascii]. *)

Module Strings.

(** [strings.Split(s, sep)] for the one-byte separator of the call site
    ([":"]): every separator ends a field, so the result always has one
    field more than [s] has separators. *)
Fixpoint Split (s : string) (sep : ascii) : list string :=
  match s with
  | EmptyString => [ "" ]
  | String c s' =>
      if Ascii.eqb c sep then "" :: Split s' sep
      else match Split s' sep with
           | x :: xs => String c x :: xs
           | [] => [ String c "" ]
           end
  end.

(** [strings.HasPrefix]-like helper: the rest of [s] after the literal
    [p], when [s] starts with [p]. *)
Fixpoint strip_prefix (p s : string) : option string :=
  match p with
  | EmptyString => Some s
  | String a p' =>
      match s with
      | EmptyString => None
      | String b s' => if Ascii.eqb a b then strip_prefix p' s' else None
      end
  end.

(** Longest prefix of [s] whose bytes satisfy [f], and the rest. *)
Fixpoint span (f : ascii -> bool) (s : string) : string * string :=
  match s with
  | EmptyString => ("", "")
  | String c s' =>
      if f c then let (a, b) := span f s' in (String c a, b)
      else ("", s)
  end.

(** Exactly [n] leading bytes satisfying [f], and the rest. *)
Fixpoint take_n (f : ascii -> bool) (n : nat) (s : string)
  : option (string * string) :=
  match n with
  | O => Some ("", s)
  | S n' =>
      match s with
      | EmptyString => None
      | String c s' =>
          if f c then
            match take_n f n' s' with
            | Some (a, b) => Some (String c a, b)
            | None => None
            end
          else None
      end
  end.

(** Every byte of [s] satisfies [f]. *)
Fixpoint all_bytes (f : ascii -> bool) (s : string) : bool :=
  match s with
  | EmptyString => true
  | String c s' => f c && all_bytes f s'
  end.

Fixpoint contains (c : ascii) (s : string) : bool :=
  match s with
  | EmptyString => false
  | String b s' => Ascii.eqb b c || contains c s'
  end.

End Strings.

(** ** The regular expression of [connectToRegistry]

    [(?P<account_id>[0-9]{12})\.dkr\.ecr\.(?P<region>[\w\d-]+)\.amazonaws\.com]
    The expression is not anchored.  The class [[\w\d-]] has no ["."], and
    the region must be followed by a ["."], so at a given start the only
    candidate for the region is the longest run of class bytes. *)

Module Regexp.
Import Strings.

(** [[0-9]] and [\d] *)
Definition is_digit (c : ascii) : bool :=
  (Ascii.leb "0" c && Ascii.leb c "9")%char.

(** [\w] is [[0-9A-Za-z_]] *)
Definition is_word (c : ascii) : bool :=
  is_digit c
  || (Ascii.leb "A" c && Ascii.leb c "Z")%char
  || (Ascii.leb "a" c && Ascii.leb c "z")%char
  || Ascii.eqb c "_"%char.

(** [[\w\d-]] *)
Definition is_region_byte (c : ascii) : bool :=
  is_word c || is_digit c || Ascii.eqb c "-"%char.

(** A match that starts at the first byte of [s]: the whole match and the
    two groups, as [FindAllStringSubmatch] lays them out. *)
Definition match_here (s : string) : option (list string) :=
  match take_n is_digit 12 s with
  | None => None
  | Some (account_id, s1) =>
      match strip_prefix ".dkr.ecr." s1 with
      | None => None
      | Some s2 =>
          let (region, s3) := span is_region_byte s2 in
          match region with
          | EmptyString => None
          | String _ _ =>
              match strip_prefix ".amazonaws.com" s3 with
              | None => None
              | Some _ =>
                  Some [ account_id +:+ ".dkr.ecr." +:+ region
                           +:+ ".amazonaws.com";
                         account_id; region ]
              end
          end
      end
  end.

(** Scan from left to right; [skip] bytes still belong to the previous
    match (matches do not overlap). *)
Fixpoint scan (s : string) (skip : nat) : list (list string) :=
  match s with
  | EmptyString => []
  | String _ s' =>
      match skip with
      | S k => scan s' k
      | O =>
          match match_here s with
          | Some m =>
              m :: scan s' (Nat.pred (String.length (default "" (m !! 0%nat))))
          | None => scan s' 0%nat
          end
      end
  end.

(** [r.FindAllStringSubmatch(url, -1)]; Go's [nil] is the empty list. *)
Definition FindAllStringSubmatch (url : string) : list (list string) :=
  scan url 0.

End Regexp.

(** ** Data *)

(** A Go [error] is its message ([err.Error()], what [%v] prints); [nil]
    is [None].  A [(value, error)] pair of results is a [result]. *)
Definition error : Type := option string.

Inductive result (A : Type) : Type :=
| Ok (a : A)
| Err (msg : string).
Arguments Ok {A} a.
Arguments Err {A} msg.

(** [schema1.FSLayer] *)
Record FSLayer : Type := { BlobSum : string }.

(** Modelled from the spec: the type declarations of [schema1.Manifest] and
    [schema1.SignedManifest] belong to the registry library and are not
    part of the sources.  The program reads [Name] and [FSLayers] and builds
    a [SignedManifest] from its [Manifest] field alone; the spec's data
    model adds the tag.  The manifest's remaining fields are kept as an
    uninterpreted list, and the signed wrapper's own payload as one string
    whose zero value is empty. *)
Record schema1_Manifest : Type := {
  Name : string;
  Tag : string;
  FSLayers : list FSLayer;
  otherFields : list (string * string)
}.

Record SignedManifest : Type := {
  Manifest : schema1_Manifest;
  payload : string
}.

(** [*registry.Registry]: the program reads its [URL] field; the rest of
    the client is an opaque handle. *)
Record Registry : Type := { URL : string; client : nat }.

(** [*os.File]: [Name()] returns the path the file was opened with. *)
Record File : Type := { File_Name : string; fd : nat }.

(** The [io.ReadCloser] returned by [DownloadLayer], and [*session.Session]. *)
Definition ReadCloser : Type := nat.
Definition Session : Type := nat.

(** [ecr.AuthorizationData] and [ecr.GetAuthorizationTokenOutput]; both
    string fields are pointers, [nil] is [None]. *)
Record ecr_AuthorizationData : Type := {
  AuthorizationToken : option string;
  ProxyEndpoint : option string
}.

Record GetAuthorizationTokenOutput : Type := {
  AuthorizationData : list ecr_AuthorizationData
}.

(** [RepositoryArguments], the flag values after [kingpin.Parse()]. *)
Record RepositoryArguments : Type := {
  RegistryURL : string;
  Repository : string;
  RepoTag : string
}.

(** All flag values of one invocation. *)
Record Flags : Type := {
  src_url : string;  src_repo : string;  src_tag : string;
  dest_url : string; dest_repo : string; dest_tag : string;
  repo : string;
  tag : string
}.

(** ** Calls to collaborators *)

(** One constructor per call the program makes, indexed by the type of
    what the call returns.  Results the Go code discards are kept in the
    type all the same. *)
Inductive Event : Type -> Type :=
| fmt_Print (text : string) : Event unit
| HasLayer (hub : Registry) (repository digest : string)
  : Event (result bool)
| DownloadLayer (hub : Registry) (repository digest : string)
  : Event (result ReadCloser)
| UploadLayer (hub : Registry) (repository digest : string) (content : File)
  : Event error
| hub_Manifest (hub : Registry) (repository tag : string)
  : Event (result SignedManifest)
| PutManifest (hub : Registry) (repository tag : string) (m : SignedManifest)
  : Event error
| registry_New (url username password : string) : Event (result Registry)
| Ping (hub : Registry) : Event error
| session_NewSession (region : string) : Event (result Session)
| GetAuthorizationToken (sess : Session) (RegistryIds : list string)
  : Event (result GetAuthorizationTokenOutput)
| base64_DecodeString (s : string) : Event (result string)
| ioutil_TempFile (dir pattern : string) : Event (result File)
| io_Copy (dst : File) (src : ReadCloser) : Event (Z * error)
| ReadCloser_Close (r : ReadCloser) : Event error
| File_Sync (f : File) : Event error
| os_Open (name : string) : Event (result File)
| File_Close (f : File) : Event error
| os_Remove (name : string) : Event error.

(** A call together with the answer it got. *)
Inductive Entry : Type :=
| Called {X : Type} (e : Event X) (x : X).

(** ** Programs *)

(** Addresses of [SignedManifest] objects, and the objects allocated so
    far. *)
Abbreviation ptr := nat.
Abbreviation Heap := (list SignedManifest).

Inductive Prog (A : Type) : Type :=
| Ret (a : A)
| Panic (msg : string)
| Call {X : Type} (e : Event X) (k : X -> Prog A)
| Alloc (v : SignedManifest) (k : ptr -> Prog A)
| Load (p : ptr) (k : SignedManifest -> Prog A)
| Store (p : ptr) (v : SignedManifest) (k : Prog A).
Arguments Ret {A} a.
Arguments Panic {A} msg.
Arguments Call {A X} e k.
Arguments Alloc {A} v k.
Arguments Load {A} p k.
Arguments Store {A} p v k.

Fixpoint bind {A B : Type} (m : Prog A) (f : A -> Prog B) : Prog B :=
  match m with
  | Ret a => f a
  | Panic msg => Panic msg
  | Call e k => Call e (fun x => bind (k x) f)
  | Alloc v k => Alloc v (fun p => bind (k p) f)
  | Load p k => Load p (fun v => bind (k v) f)
  | Store p v k => Store p v (bind k f)
  end.

Definition call {X : Type} (e : Event X) : Prog X := Call e Ret.

Notation "x <- m ;; k" := (bind m (fun x => k))
  (at level 100, m at next level, right associativity).
Notation "m ;;; k" := (bind m (fun _ => k))
  (at level 100, right associativity).

(** [l[i]]: an index out of range panics. *)
Definition index {A : Type} (l : list A) (i : nat) : Prog A :=
  match l !! i with
  | Some x => Ret x
  | None => Panic "runtime error: index out of range"
  end.

(** [*p] for a pointer to a string. *)
Definition deref (p : option string) : Prog string :=
  match p with
  | Some s => Ret s
  | None => Panic "runtime error: invalid memory address or nil pointer dereference"
  end.

(** ** Running a program *)

Inductive Outcome (A : Type) : Type :=
| Returned (a : A)
| Panicked (msg : string).
Arguments Returned {A} a.
Arguments Panicked {A} msg.

Record Run (A W : Type) : Type := {
  outcome : Outcome A;
  heap : Heap;
  world : W;
  trace : list Entry
}.
Arguments outcome {A W} r.
Arguments heap {A W} r.
Arguments world {A W} r.
Arguments trace {A W} r.

(** The collaborators: every call gets an answer and may change the state
    of the outside world. *)
Definition Handler (W : Type) : Type := forall X : Type, Event X -> W -> X * W.

Definition logged {A W : Type} (en : Entry) (r : Run A W) : Run A W :=
  {| outcome := outcome r; heap := heap r; world := world r;
     trace := en :: trace r |}.

Fixpoint run {A W : Type} (h : Handler W) (m : Prog A) (hp : Heap) (w : W)
  : Run A W :=
  match m with
  | Ret a => {| outcome := Returned a; heap := hp; world := w; trace := [] |}
  | Panic msg =>
      {| outcome := Panicked msg; heap := hp; world := w; trace := [] |}
  | Call e k =>
      let (x, w') := h _ e w in logged (Called e x) (run h (k x) hp w')
  | Alloc v k => run h (k (length hp)) (hp ++ [ v ]) w
  | Load p k =>
      match hp !! p with
      | Some v => run h (k v) hp w
      | None =>
          {| outcome :=
               Panicked "runtime error: invalid memory address or nil pointer dereference";
             heap := hp; world := w; trace := [] |}
      end
  | Store p v k =>
      match hp !! p with
      | Some _ => run h k (<[ p := v ]> hp) w
      | None =>
          {| outcome :=
               Panicked "runtime error: invalid memory address or nil pointer dereference";
             heap := hp; world := w; trace := [] |}
      end
  end.

(** The argument of the deferred [os.Exit(exitCode)] of [main], which runs
    when [main] returns and also while it panics.  [exitCode] is assigned
    only right before a [return], so at every panic it still holds its
    initial [0]. *)
Definition os_Exit {W : Type} (r : Run Z W) : Z :=
  match outcome r with
  | Returned exitCode => exitCode
  | Panicked _ => 0%Z
  end.

(** ** The program *)

(** The newline [fmt.Println] appends. *)
Definition newline : string := String (ascii_of_nat 10) "".

Definition moveLayerUsingFile (srcHub destHub : Registry)
    (srcRepo destRepo : string) (layer : FSLayer) (file : File)
  : Prog error :=
  let layerDigest := BlobSum layer in
  r <- call (DownloadLayer srcHub srcRepo layerDigest) ;;
  match r with
  | Err err =>
      Ret (Some ("Failure while starting the download of an image layer. "
                 +:+ err))
  | Ok srcImageReader =>
      c <- call (io_Copy file srcImageReader) ;;
      match snd c with
      | Some err =>
          Ret (Some ("Failure while copying the image layer to a temp file. "
                     +:+ err))
      | None =>
          call (ReadCloser_Close srcImageReader) ;;;
          call (File_Sync file) ;;;
          r <- call (os_Open (File_Name file)) ;;
          match r with
          | Err err =>
              Ret (Some ("Failed to open temporary image layer for uploading. "
                         +:+ err))
          | Ok imageReadStream =>
              err <- call (UploadLayer destHub destRepo layerDigest
                             imageReadStream) ;;
              call (File_Close imageReadStream) ;;;
              match err with
              | Some err =>
                  Ret (Some ("Failure while uploading the image. " +:+ err))
              | None => Ret None
              end
          end
      end
  end.

Definition migrateLayer (srcHub destHub : Registry)
    (srcRepo destRepo : string) (layer : FSLayer) : Prog error :=
  call (fmt_Print ("Checking if manifest layer exists in destination registery"
                   +:+ newline)) ;;;
  let layerDigest := BlobSum layer in
  r <- call (HasLayer destHub destRepo layerDigest) ;;
  match r with
  | Err err =>
      Ret (Some ("Failure while checking if the destination registry contained an image layer. "
                 +:+ err))
  | Ok hasLayer =>
      if negb hasLayer then
        call (fmt_Print ("Need to upload layer " +:+ layerDigest
                         +:+ " to the destination" +:+ newline)) ;;;
        r <- call (ioutil_TempFile "" "docker-image") ;;
        match r with
        | Err err =>
            Ret (Some ("Failure while creating temporary file for an image layer download. "
                       +:+ err))
        | Ok tempFile =>
            err <- moveLayerUsingFile srcHub destHub srcRepo destRepo layer
                     tempFile ;;
            removeErr <- call (os_Remove (File_Name tempFile)) ;;
            match removeErr with
            | Some removeErr =>
                call (fmt_Print ("Failed to remove image layer temp file "
                                 +:+ File_Name tempFile +:+ ". " +:+ removeErr))
            | None => Ret tt
            end ;;;
            Ret err
        end
      else
        call (fmt_Print ("Layer already exists in the destination"
                         +:+ newline)) ;;;
        Ret None
  end.

(** Lines 118 to 157 of [connectToRegistry]: the URL and the credentials
    handed to [registry.New], or the error returned early.  [ecr.New(sess)]
    only wraps the session, so the token request carries the session. *)
Definition connectToRegistry_credentials (origUrl : string)
  : Prog (result (string * string * string)) :=
  let url := origUrl in
  let username := "" in
  let password := "" in
  let r2 := Regexp.FindAllStringSubmatch url in
  match r2 with
  | [] => Ret (Ok (url, username, password))
  | _ :: _ =>
      m0 <- index r2 0 ;;
      registryId <- index m0 1 ;;
      region <- index m0 2 ;;
      r <- call (session_NewSession region) ;;
      match r with
      | Err err =>
          Ret (Err ("Failed to create new AWS SDK session. " +:+ err))
      | Ok sess =>
          r <- call (GetAuthorizationToken sess [ registryId ]) ;;
          match r with
          | Err err =>
              Ret (Err ("Failed to get ECR authorization token for registry "
                        +:+ registryId +:+ ". " +:+ err))
          | Ok resp =>
              a0 <- index (AuthorizationData resp) 0 ;;
              token <- deref (AuthorizationToken a0) ;;
              r <- call (base64_DecodeString token) ;;
              match r with
              | Err err =>
                  Ret (Err ("Failed to decode base64 encoded authorization data for ECR registry "
                            +:+ registryId +:+ ". " +:+ err))
              | Ok decoded =>
                  let parts := Strings.Split decoded ":" in
                  a0 <- index (AuthorizationData resp) 0 ;;
                  url <- deref (ProxyEndpoint a0) ;;
                  username <- index parts 0 ;;
                  password <- index parts 1 ;;
                  Ret (Ok (url, username, password))
              end
          end
      end
  end.

Definition connectToRegistry (args : RepositoryArguments)
  : Prog (result Registry) :=
  let origUrl := RegistryURL args in
  c <- connectToRegistry_credentials origUrl ;;
  match c with
  | Err err => Ret (Err err)
  | Ok (url, username, password) =>
      r <- call (registry_New url username password) ;;
      match r with
      | Err err =>
          Ret (Err ("Failed to create registry connection for " +:+ origUrl
                    +:+ ". " +:+ err))
      | Ok registry =>
          err <- call (Ping registry) ;;
          match err with
          | Some err =>
              Ret (Err ("Failed to ping registry " +:+ origUrl
                        +:+ " as a connection test. " +:+ err))
          | None => Ret (Ok registry)
          end
      end
  end.

(** The [--repo] and [--tag] fallbacks of [main] (lines 184 to 196). *)
Definition srcArgs (fl : Flags) : RepositoryArguments :=
  {| RegistryURL := src_url fl;
     Repository := if String.eqb (src_repo fl) "" then repo fl else src_repo fl;
     RepoTag := if String.eqb (src_tag fl) "" then tag fl else src_tag fl |}.

Definition destArgs (fl : Flags) : RepositoryArguments :=
  {| RegistryURL := dest_url fl;
     Repository :=
       if String.eqb (dest_repo fl) "" then repo fl else dest_repo fl;
     RepoTag := if String.eqb (dest_tag fl) "" then tag fl else dest_tag fl |}.

(** The loop over [manifest.FSLayers] (lines 231 to 238), followed by the
    rest of [main]. *)
Fixpoint main_layers (srcHub destHub : Registry) (srcRepo destRepo : string)
    (layers : list FSLayer) (rest : Prog Z) : Prog Z :=
  match layers with
  | [] => rest
  | layer :: layers' =>
      err <- migrateLayer srcHub destHub srcRepo destRepo layer ;;
      match err with
      | Some err =>
          call (fmt_Print ("Failed to migrate image layer. " +:+ err)) ;;;
          Ret (-1)%Z
      | None => main_layers srcHub destHub srcRepo destRepo layers' rest
      end
  end.

(** The assignment [m.Name = name] on a manifest value. *)
Definition set_Name (m : schema1_Manifest) (name : string) : schema1_Manifest :=
  {| Name := name; Tag := Tag m; FSLayers := FSLayers m;
     otherFields := otherFields m |}.

(** Lines 240 to 250: [manifest] points to the source manifest; the
    composite literal allocates a new object holding a copy of the
    [Manifest] field, the assignment writes to that object, and
    [PutManifest] is given the object as it is at the call. *)
Definition main_publish (destHub : Registry) (dest : RepositoryArguments)
    (manifest : ptr) : Prog Z :=
  src <- Load manifest Ret ;;
  destManifest <- Alloc {| Manifest := Manifest src; payload := "" |} Ret ;;
  d <- Load destManifest Ret ;;
  Store destManifest
    {| Manifest := set_Name (Manifest d) (Repository dest);
       payload := payload d |} (Ret tt) ;;;
  published <- Load destManifest Ret ;;
  err <- call (PutManifest destHub (Repository dest) (RepoTag dest)
                 published) ;;
  match err with
  | Some err =>
      call (fmt_Print ("Failed to upload manifest to " +:+ URL destHub
                       +:+ "/" +:+ Repository dest +:+ ":" +:+ RepoTag dest
                       +:+ ". " +:+ err)) ;;;
      Ret (-1)%Z
  | None => Ret 0%Z
  end.

(** Lines 224 to 250 of [main]: fetch the manifest, migrate the layers,
    publish.  [srcHub.Manifest] returns a pointer: its answer is stored in
    a new object and [manifest] is the address of that object. *)
Definition main_transfer (srcHub destHub : Registry)
    (src dest : RepositoryArguments) : Prog Z :=
  r <- call (hub_Manifest srcHub (Repository src) (RepoTag src)) ;;
  match r with
  | Err err =>
      call (fmt_Print ("Failed to fetch the manifest for "
                       +:+ URL srcHub +:+ "/" +:+ Repository src
                       +:+ ":" +:+ RepoTag src +:+ ". " +:+ err)) ;;;
      Ret (-1)%Z
  | Ok m =>
      manifest <- Alloc m Ret ;;
      cur <- Load manifest Ret ;;
      main_layers srcHub destHub (Repository src) (Repository dest)
        (FSLayers (Manifest cur))
        (main_publish destHub dest manifest)
  end.

(** What [main] prints when [connectToRegistry(destArgs)] fails. *)
Definition dest_failure : string :=
  "Failed to establish a connection to the destination registry. ".

(** [main] after flag parsing; the value is [exitCode] when the function
    returns. *)
Definition main (fl : Flags) : Prog Z :=
  let src := srcArgs fl in
  let dest := destArgs fl in
  if String.eqb (Repository src) "" then
    call (fmt_Print "A source repository name is required either with --src-repo or --repo") ;;;
    Ret (-1)%Z
  else if String.eqb (Repository dest) "" then
    call (fmt_Print "A destination repository name is required either with --dest-repo or --repo") ;;;
    Ret (-1)%Z
  else
    r <- connectToRegistry src ;;
    match r with
    | Err err =>
        call (fmt_Print ("Failed to establish a connection to the source registry. "
                         +:+ err)) ;;;
        Ret (-1)%Z
    | Ok srcHub =>
        r <- connectToRegistry dest ;;
        match r with
        | Err err =>
            call (fmt_Print (dest_failure +:+ err)) ;;;
            Ret (-1)%Z
        | Ok destHub => main_transfer srcHub destHub src dest
        end
    end.


(** ** Reading a trace *)

Definition is_DownloadLayer (en : Entry) : bool :=
  match en with
  | Called e _ => match e with DownloadLayer _ _ _ => true | _ => false end
  end.

Definition is_UploadLayer (en : Entry) : bool :=
  match en with
  | Called e _ => match e with UploadLayer _ _ _ _ => true | _ => false end
  end.

Definition is_HasLayer (en : Entry) : bool :=
  match en with
  | Called e _ => match e with HasLayer _ _ _ => true | _ => false end
  end.

Definition is_os_Remove (en : Entry) : bool :=
  match en with
  | Called e _ => match e with os_Remove _ => true | _ => false end
  end.

Definition is_PutManifest (en : Entry) : bool :=
  match en with
  | Called e _ => match e with PutManifest _ _ _ _ => true | _ => false end
  end.

Definition is_fmt_Print (en : Entry) : bool :=
  match en with
  | Called e _ => match e with fmt_Print _ => true | _ => false end
  end.

(** The three layer operations of the registry client. *)
Definition is_layer_op (en : Entry) : bool :=
  is_HasLayer en || is_DownloadLayer en || is_UploadLayer en.

(** The calls that write to a registry. *)
Definition is_registry_write (en : Entry) : bool :=
  is_UploadLayer en || is_PutManifest en.

(** The calls of the cloud credential exchange. *)
Definition is_credential_exchange (en : Entry) : bool :=
  match en with
  | Called e _ =>
      match e with
      | session_NewSession _ | GetAuthorizationToken _ _
      | base64_DecodeString _ => true
      | _ => false
      end
  end.

(** Every call that leaves the process for a registry or for the cloud
    API. *)
Definition is_network (en : Entry) : bool :=
  match en with
  | Called e _ =>
      match e with
      | HasLayer _ _ _ | DownloadLayer _ _ _ | UploadLayer _ _ _ _
      | hub_Manifest _ _ _ | PutManifest _ _ _ _ | registry_New _ _ _
      | Ping _ | session_NewSession _ | GetAuthorizationToken _ _ => true
      | _ => false
      end
  end.

(** [HasLayer] answered [present] without error. *)
Definition HasLayer_answered (present : bool) (en : Entry) : bool :=
  match en with
  | @Called X e x =>
      match e in Event T return T -> bool with
      | HasLayer _ _ _ =>
          fun r => match r with Ok b => Bool.eqb b present | Err _ => false end
      | _ => fun _ => false
      end x
  end.

(** [ioutil.TempFile] returned a file. *)
Definition TempFile_created (en : Entry) : bool :=
  match en with
  | @Called X e x =>
      match e in Event T return T -> bool with
      | ioutil_TempFile _ _ =>
          fun r => match r with Ok _ => true | Err _ => false end
      | _ => fun _ => false
      end x
  end.

(** A failure of the download step of [moveLayerUsingFile]:
    [DownloadLayer], [io.Copy] or [os.Open] returned an error. *)
Definition download_step_failed (en : Entry) : bool :=
  match en with
  | @Called X e x =>
      match e in Event T return T -> bool with
      | DownloadLayer _ _ _ =>
          fun r => match r with Ok _ => false | Err _ => true end
      | io_Copy _ _ =>
          fun c => match snd c with Some _ => true | None => false end
      | os_Open _ =>
          fun r => match r with Ok _ => false | Err _ => true end
      | _ => fun _ => false
      end x
  end.

(** [fmt] printed a text that starts with [p]. *)
Definition printed (p : string) (en : Entry) : bool :=
  match en with
  | Called e _ =>
      match e with fmt_Print text => String.prefix p text | _ => false end
  end.

Definition count (f : Entry -> bool) (tr : list Entry) : nat :=
  length (List.filter f tr).

(** The endpoint of a connection: the arguments of the first
    [registry.New] of a trace. *)
Fixpoint endpoint_of (tr : list Entry) : option (string * string * string) :=
  match tr with
  | [] => None
  | Called e _ :: tr' =>
      match e with
      | registry_New url username password => Some (url, username, password)
      | _ => endpoint_of tr'
      end
  end.

(** The manifest handed to the first [PutManifest] of a trace. *)
Fixpoint published_of (tr : list Entry) : option SignedManifest :=
  match tr with
  | [] => None
  | Called e _ :: tr' =>
      match e with
      | PutManifest _ _ _ m => Some m
      | _ => published_of tr'
      end
  end.

(** The manifest the source answered with. *)
Fixpoint fetched_of (tr : list Entry) : option SignedManifest :=
  match tr with
  | [] => None
  | @Called X e x :: tr' =>
      match e in Event T return T -> option SignedManifest with
      | hub_Manifest _ _ _ =>
          fun r => match r with Ok m => Some m | Err _ => fetched_of tr' end
      | _ => fun _ => fetched_of tr'
      end x
  end.

(** ** The specification's reading of the token

    "Splitting on the first [:]": the text before the first separator and
    all the text after it; nothing when there is no separator. *)
Fixpoint cut_first (s : string) (sep : ascii) : option (string * string) :=
  match s with
  | EmptyString => None
  | String c s' =>
      if Ascii.eqb c sep then Some ("", s')
      else match cut_first s' sep with
           | Some (a, b) => Some (String c a, b)
           | None => None
           end
  end.


(** ** An in-memory double of the collaborators

    Used to run the program on concrete inputs.  The registries keep the
    blobs and manifests they were sent; [Faults] says which calls fail. *)

Record Faults : Type := {
  fail_HasLayer : bool;
  fail_TempFile : bool;
  fail_Download : bool;
  fail_Copy : bool;
  fail_Open : bool;
  fail_Upload : bool;
  fail_Remove : bool;
  (** registries that do not answer a ping *)
  unreachable : list string;
  (** what the token service returns *)
  token : string;
  proxy : string;
  (** the base64 texts the decoder knows, with their decoding *)
  base64_table : list (string * string);
  (** the manifest the source serves *)
  served : SignedManifest
}.

Record World : Type := {
  (** (registry URL, digest) of every blob stored *)
  blobs : list (string * string);
  (** (registry URL, repository, tag, manifest) of every manifest stored *)
  manifests : list (string * string * string * SignedManifest);
  (** temporary files that exist *)
  files : list string
}.

Fixpoint assoc (k : string) (l : list (string * string)) : option string :=
  match l with
  | [] => None
  | (k', v) :: l' => if String.eqb k k' then Some v else assoc k l'
  end.

Definition has_blob (url digest : string) (w : World) : bool :=
  existsb (fun b => String.eqb (fst b) url && String.eqb (snd b) digest)
    (blobs w).

Definition double (f : Faults) : Handler World :=
  fun X e w =>
    match e in Event T return T * World with
    | fmt_Print _ => (tt, w)
    | HasLayer hub _ digest =>
        if fail_HasLayer f then (Err "registry unavailable", w)
        else (Ok (has_blob (URL hub) digest w), w)
    | DownloadLayer _ _ _ =>
        if fail_Download f then (Err "connection reset", w) else (Ok 7, w)
    | UploadLayer hub _ digest _ =>
        if fail_Upload f then (Some "denied", w)
        else (None, {| blobs := (URL hub, digest) :: blobs w;
                       manifests := manifests w; files := files w |})
    | hub_Manifest _ _ _ => (Ok (served f), w)
    | PutManifest hub repository tag m =>
        (None, {| blobs := blobs w;
                  manifests := (URL hub, repository, tag, m) :: manifests w;
                  files := files w |})
    | registry_New url _ _ =>
        if String.eqb url "" then (Err "empty registry url", w)
        else (Ok {| URL := url; client := 1 |}, w)
    | Ping hub =>
        if existsb (String.eqb (URL hub)) (unreachable f)
        then (Some "connection refused", w) else (None, w)
    | session_NewSession _ => (Ok 1, w)
    | GetAuthorizationToken _ _ =>
        (Ok {| AuthorizationData :=
                 [ {| AuthorizationToken := Some (token f);
                      ProxyEndpoint := Some (proxy f) |} ] |}, w)
    | base64_DecodeString s =>
        match assoc s (base64_table f) with
        | Some d => (Ok d, w)
        | None => (Err "illegal base64 data at input byte 0", w)
        end
    | ioutil_TempFile _ _ =>
        if fail_TempFile f then (Err "no space left on device", w)
        else (Ok {| File_Name := "/tmp/docker-image042"; fd := 3 |},
              {| blobs := blobs w; manifests := manifests w;
                 files := "/tmp/docker-image042" :: files w |})
    | io_Copy _ _ =>
        if fail_Copy f then (0%Z, Some "unexpected EOF", w)
        else (1024%Z, None, w)
    | ReadCloser_Close _ => (None, w)
    | File_Sync _ => (None, w)
    | os_Open name =>
        if fail_Open f then (Err "too many open files", w)
        else (Ok {| File_Name := name; fd := 4 |}, w)
    | File_Close _ => (None, w)
    | os_Remove name =>
        if fail_Remove f then (Some "permission denied", w)
        else (None, {| blobs := blobs w; manifests := manifests w;
                       files := List.filter (fun n => negb (String.eqb n name))
                                  (files w) |})
    end.

Definition layer1 : FSLayer := {| BlobSum := "sha256:d1" |}.
Definition layer2 : FSLayer := {| BlobSum := "sha256:d2" |}.

Definition image : SignedManifest :=
  {| Manifest := {| Name := "team/app"; Tag := "1.0";
                    FSLayers := [ layer1; layer2 ];
                    otherFields := [ ("architecture", "amd64") ] |};
     payload := "{signed}" |}.

Definition no_faults : Faults :=
  {| fail_HasLayer := false; fail_TempFile := false; fail_Download := false;
     fail_Copy := false; fail_Open := false; fail_Upload := false;
     fail_Remove := false; unreachable := [];
     token := "QVdTOnNlY3JldA=="; proxy := "https://123456789012.dkr.ecr.us-east-1.amazonaws.com";
     base64_table := [ ("QVdTOnNlY3JldA==", "AWS:secret");
                       ("QVdTOmFiOmNk", "AWS:ab:cd");
                       ("QVdTOg==", "AWS:");
                       ("QVdT", "AWS") ];
     served := image |}.

Definition with_token (t : string) (f : Faults) : Faults :=
  {| fail_HasLayer := fail_HasLayer f; fail_TempFile := fail_TempFile f;
     fail_Download := fail_Download f; fail_Copy := fail_Copy f;
     fail_Open := fail_Open f; fail_Upload := fail_Upload f;
     fail_Remove := fail_Remove f; unreachable := unreachable f;
     token := t; proxy := proxy f; base64_table := base64_table f;
     served := served f |}.

Definition src_hub : Registry := {| URL := "https://src.example.com"; client := 1 |}.
Definition dest_hub : Registry := {| URL := "https://dest.example.com"; client := 1 |}.

Definition empty_world : World := {| blobs := []; manifests := []; files := [] |}.

(** The destination already stores the first layer. *)
Definition world_with_d1 : World :=
  {| blobs := [ ("https://dest.example.com", "sha256:d1") ];
     manifests := []; files := [] |}.

Definition flags : Flags :=
  {| src_url := "https://src.example.com"; src_repo := ""; src_tag := "";
     dest_url := "https://dest.example.com"; dest_repo := "mirror/app";
     dest_tag := "stable"; repo := "team/app"; tag := "latest" |}.

Definition ecr_args : RepositoryArguments :=
  {| RegistryURL := "123456789012.dkr.ecr.us-east-1.amazonaws.com";
     Repository := "team/app"; RepoTag := "latest" |}.

(** ** Sequencing of runs *)

(** The run of [m] followed by the run of the rest: a panic of [m] ends
    the run, otherwise the rest starts from the heap and world [m] left
    and the traces follow one another. *)
Definition then_run {A B W : Type} (r1 : Run A W)
    (f : A -> Heap -> W -> Run B W) : Run B W :=
  match outcome r1 with
  | Returned a =>
      let r2 := f a (heap r1) (world r1) in
      {| outcome := outcome r2; heap := heap r2; world := world r2;
         trace := trace r1 ++ trace r2 |}
  | Panicked msg =>
      {| outcome := Panicked msg; heap := heap r1; world := world r1;
         trace := trace r1 |}
  end.

(** The entries [removeErr] adds to the trace of [migrateLayer]. *)
Definition remove_log (file : File) (removeErr : error) : list Entry :=
  match removeErr with
  | Some msg =>
      [ Called (os_Remove (File_Name file)) (Some msg);
        Called (fmt_Print ("Failed to remove image layer temp file "
                           +:+ File_Name file +:+ ". " +:+ msg)) tt ]
  | None => [ Called (os_Remove (File_Name file)) None ]
  end.

(** The calls [moveLayerUsingFile] can make. *)
Definition is_transfer_call (en : Entry) : bool :=
  match en with
  | Called e _ =>
      match e with
      | DownloadLayer _ _ _ | io_Copy _ _ | ReadCloser_Close _ | File_Sync _
      | os_Open _ | UploadLayer _ _ _ _ | File_Close _ => true
      | _ => false
      end
  end.

(** The calls [migrateLayer] can make. *)
Definition is_migrate_call (en : Entry) : bool :=
  is_transfer_call en
  || match en with
     | Called e _ =>
         match e with
         | fmt_Print _ | HasLayer _ _ _ | ioutil_TempFile _ _ | os_Remove _ =>
             true
         | _ => false
         end
     end.

(** The calls [connectToRegistry] can make. *)
Definition is_connect_call (en : Entry) : bool :=
  is_credential_exchange en
  || match en with
     | Called e _ =>
         match e with registry_New _ _ _ | Ping _ => true | _ => false end
     end.

Definition is_hub_Manifest (en : Entry) : bool :=
  match en with
  | Called e _ => match e with hub_Manifest _ _ _ => true | _ => false end
  end.

(** The object [main] publishes for a source manifest [m]. *)
Definition destManifest_for (m : SignedManifest) (name : string)
  : SignedManifest :=
  {| Manifest := set_Name (Manifest m) name; payload := "" |}.

(** The calls of the layer loop of [main]; none of the lines it prints
    is the report of a failed destination connection. *)
Definition is_layer_loop_call (en : Entry) : bool :=
  is_migrate_call en && negb (printed dest_failure en).


(** The decoder returned a text without [":"]. *)
Definition decoded_without_separator (en : Entry) : bool :=
  match en with
  | @Called X e x =>
      match e in Event T return T -> bool with
      | base64_DecodeString _ =>
          fun r =>
            match r with
            | Ok decoded => negb (Strings.contains ":" decoded)
            | Err _ => false
            end
      | _ => fun _ => false
      end x
  end.

(** Doubles with chosen transfer faults and unreachable registries. *)
Definition faulty (download copy open upload remove : bool)
    (down : list string) : Faults :=
  {| fail_HasLayer := false; fail_TempFile := false;
     fail_Download := download; fail_Copy := copy; fail_Open := open;
     fail_Upload := upload; fail_Remove := remove; unreachable := down;
     token := token no_faults; proxy := proxy no_faults;
     base64_table := base64_table no_faults; served := served no_faults |}.

(** An invocation whose source is a managed registry. *)
Definition ecr_flags : Flags :=
  {| src_url := "123456789012.dkr.ecr.us-east-1.amazonaws.com";
     src_repo := "team/app"; src_tag := "";
     dest_url := "https://dest.example.com"; dest_repo := "";
     dest_tag := ""; repo := "team/app"; tag := "latest" |}.

(** An invocation with no repository name at all. *)
Definition flags_without_repo : Flags :=
  {| src_url := "https://src.example.com"; src_repo := ""; src_tag := "";
     dest_url := "https://dest.example.com"; dest_repo := ""; dest_tag := "";
     repo := ""; tag := "latest" |}.

(** ** More readings of a trace *)

Definition Registry_eqb (a b : Registry) : bool :=
  String.eqb (URL a) (URL b) && Nat.eqb (client a) (client b).

Definition is_File_Close (en : Entry) : bool :=
  match en with
  | Called e _ => match e with File_Close _ => true | _ => false end
  end.

Definition is_ReadCloser_Close (en : Entry) : bool :=
  match en with
  | Called e _ => match e with ReadCloser_Close _ => true | _ => false end
  end.

Definition is_Ping (en : Entry) : bool :=
  match en with
  | Called e _ => match e with Ping _ => true | _ => false end
  end.

Definition is_registry_New (en : Entry) : bool :=
  match en with
  | Called e _ => match e with registry_New _ _ _ => true | _ => false end
  end.

(** [HasLayer] returned an error. *)
Definition HasLayer_failed (en : Entry) : bool :=
  match en with
  | @Called X e x =>
      match e in Event T return T -> bool with
      | HasLayer _ _ _ =>
          fun r => match r with Ok _ => false | Err _ => true end
      | _ => fun _ => false
      end x
  end.

(** [ioutil.TempFile] returned an error. *)
Definition TempFile_failed (en : Entry) : bool :=
  match en with
  | @Called X e x =>
      match e in Event T return T -> bool with
      | ioutil_TempFile _ _ =>
          fun r => match r with Ok _ => false | Err _ => true end
      | _ => fun _ => false
      end x
  end.

(** [io.Copy] returned without error. *)
Definition copy_succeeded (en : Entry) : bool :=
  match en with
  | @Called X e x =>
      match e in Event T return T -> bool with
      | io_Copy _ _ =>
          fun c => match snd c with Some _ => false | None => true end
      | _ => fun _ => false
      end x
  end.

(** [UploadLayer] returned [nil], or an error. *)
Definition UploadLayer_returned (ok : bool) (en : Entry) : bool :=
  match en with
  | @Called X e x =>
      match e in Event T return T -> bool with
      | UploadLayer _ _ _ _ =>
          fun r => match r with None => ok | Some _ => negb ok end
      | _ => fun _ => false
      end x
  end.

(** [PutManifest] returned [nil]. *)
Definition PutManifest_succeeded (en : Entry) : bool :=
  match en with
  | @Called X e x =>
      match e in Event T return T -> bool with
      | PutManifest _ _ _ _ =>
          fun r => match r with None => true | Some _ => false end
      | _ => fun _ => false
      end x
  end.

(** [Manifest] returned an error. *)
Definition hub_Manifest_failed (en : Entry) : bool :=
  match en with
  | @Called X e x =>
      match e in Event T return T -> bool with
      | hub_Manifest _ _ _ =>
          fun r => match r with Ok _ => false | Err _ => true end
      | _ => fun _ => false
      end x
  end.

(** [registry.New] returned an error. *)
Definition registry_New_failed (en : Entry) : bool :=
  match en with
  | @Called X e x =>
      match e in Event T return T -> bool with
      | registry_New _ _ _ =>
          fun r => match r with Ok _ => false | Err _ => true end
      | _ => fun _ => false
      end x
  end.

(** A call of the credential exchange returned an error. *)
Definition exchange_failed (en : Entry) : bool :=
  match en with
  | @Called X e x =>
      match e in Event T return T -> bool with
      | session_NewSession _ =>
          fun r => match r with Ok _ => false | Err _ => true end
      | GetAuthorizationToken _ _ =>
          fun r => match r with Ok _ => false | Err _ => true end
      | base64_DecodeString _ =>
          fun r => match r with Ok _ => false | Err _ => true end
      | _ => fun _ => false
      end x
  end.

(** The token request succeeded with an empty [AuthorizationData]. *)
Definition no_authorization_data (en : Entry) : bool :=
  match en with
  | @Called X e x =>
      match e in Event T return T -> bool with
      | GetAuthorizationToken _ _ =>
          fun r =>
            match r with
            | Ok resp =>
                match AuthorizationData resp with [] => true | _ :: _ => false end
            | Err _ => false
            end
      | _ => fun _ => false
      end x
  end.

(** The layer calls of one [migrateLayer] go where they should: downloads
    to the source hub and repository, existence queries and uploads to the
    destination hub and repository, all for the one digest. *)
Definition routed (srcHub destHub : Registry) (srcRepo destRepo digest : string)
    (en : Entry) : bool :=
  match en with
  | Called e _ =>
      match e with
      | DownloadLayer hub repository d =>
          Registry_eqb hub srcHub && String.eqb repository srcRepo
          && String.eqb d digest
      | HasLayer hub repository d | UploadLayer hub repository d _ =>
          Registry_eqb hub destHub && String.eqb repository destRepo
          && String.eqb d digest
      | _ => true
      end
  end.

(** The digests asked of [HasLayer], in the order of the calls. *)
Fixpoint queried (tr : list Entry) : list string :=
  match tr with
  | [] => []
  | Called e _ :: tr' =>
      match e with
      | HasLayer _ _ digest => digest :: queried tr'
      | _ => queried tr'
      end
  end.

(** The digests a hub is known to hold in a repository after a trace, in
    the order of the calls: [HasLayer] answered [true] for them, or
    [UploadLayer] returned [nil]. *)
Fixpoint ensured_at (hub : Registry) (repository : string) (tr : list Entry)
  : list string :=
  match tr with
  | [] => []
  | @Called X e x :: tr' =>
      match e in Event T return T -> list string with
      | HasLayer h r digest =>
          fun a =>
            match a with
            | Ok true =>
                if Registry_eqb h hub && String.eqb r repository
                then digest :: ensured_at hub repository tr'
                else ensured_at hub repository tr'
            | _ => ensured_at hub repository tr'
            end
      | UploadLayer h r digest _ =>
          fun a =>
            match a with
            | None =>
                if Registry_eqb h hub && String.eqb r repository
                then digest :: ensured_at hub repository tr'
                else ensured_at hub repository tr'
            | Some _ => ensured_at hub repository tr'
            end
      | _ => fun _ => ensured_at hub repository tr'
      end x
  end.

(** The [Manifest] calls of a trace: hub, repository and tag. *)
Fixpoint fetch_calls (tr : list Entry) : list (Registry * string * string) :=
  match tr with
  | [] => []
  | Called e _ :: tr' =>
      match e with
      | hub_Manifest hub repository tag =>
          (hub, repository, tag) :: fetch_calls tr'
      | _ => fetch_calls tr'
      end
  end.

(** The [PutManifest] calls of a trace: hub, repository and tag. *)
Fixpoint publish_calls (tr : list Entry) : list (Registry * string * string) :=
  match tr with
  | [] => []
  | Called e _ :: tr' =>
      match e with
      | PutManifest hub repository tag _ =>
          (hub, repository, tag) :: publish_calls tr'
      | _ => publish_calls tr'
      end
  end.

(** The calls that read or write the content of a registry: layers and
    manifests. *)
Definition is_content_call (en : Entry) : bool :=
  is_layer_op en || is_hub_Manifest en || is_PutManifest en.

(** The content calls of a migration go where they should: layers are
    downloaded and the manifest fetched from the source hub and
    repository; existence queries, uploads and the publication go to the
    destination hub and repository. *)
Definition main_routed (srcHub destHub : Registry) (srcRepo destRepo : string)
    (en : Entry) : bool :=
  match en with
  | Called e _ =>
      match e with
      | DownloadLayer hub repository _ | hub_Manifest hub repository _ =>
          Registry_eqb hub srcHub && String.eqb repository srcRepo
      | HasLayer hub repository _ | UploadLayer hub repository _ _
      | PutManifest hub repository _ _ =>
          Registry_eqb hub destHub && String.eqb repository destRepo
      | _ => true
      end
  end.

(** What [main] prints when [connectToRegistry(srcArgs)] fails. *)
Definition src_failure : string :=
  "Failed to establish a connection to the source registry. ".

(** ** The flags

    [kingpin.Flag(name, help).String()] adds a flag to the application and
    returns the pointer its value is parsed into.  The application is the
    list of the flags added so far, as (name, help); a pointer is stood for
    by the name of its flag. *)

Definition kingpin_Flag (name help : string) (app : list (string * string))
  : string * list (string * string) :=
  (name, app ++ [ (name, help) ]).

(** [buildRegistryArguments]: the [RepositoryArguments] of flag pointers,
    and the application with the three flags added. *)
Definition buildRegistryArguments (argPrefix argDescription : string)
    (app : list (string * string))
  : RepositoryArguments * list (string * string) :=
  let registryURLName := argPrefix +:+ "-url" in
  let registryURLDescription := "URL of " +:+ argDescription +:+ " registry" in
  let (registryURLArg, app1) :=
    kingpin_Flag registryURLName registryURLDescription app in
  let repositoryName := argPrefix +:+ "-repo" in
  let repositoryDescription :=
    "Name of the " +:+ argDescription +:+ " repository" in
  let (repositoryArg, app2) :=
    kingpin_Flag repositoryName repositoryDescription app1 in
  let tagName := argPrefix +:+ "-tag" in
  let tagDescription := "Name of the " +:+ argDescription +:+ " tag" in
  let (tagArg, app3) := kingpin_Flag tagName tagDescription app2 in
  ({| RegistryURL := registryURLArg; Repository := repositoryArg;
      RepoTag := tagArg |}, app3).

(** Lines 178 to 181 of [main]: all the flags of the program. *)
Definition main_flags : list (string * string) :=
  let (srcFlags, app1) := buildRegistryArguments "src" "source" [] in
  let (destFlags, app2) := buildRegistryArguments "dest" "destination" app1 in
  let (repoArg, app3) :=
    kingpin_Flag "repo" "The repository in the source and the destination. Values provided by --src-repo or --dest-tag will override this value" app2 in
  let (tagArg, app4) :=
    kingpin_Flag "tag" "The tag name in the source and the destination. Values provided by --src-tag or --dest-tag will override this value" app3 in
  app4.

(** The last byte of a string. *)
Fixpoint last_byte (s : string) : option ascii :=
  match s with
  | EmptyString => None
  | String c EmptyString => Some c
  | String _ s' => last_byte s'
  end.

(** One layer of a run of the layer loop: the trace of a [migrateLayer]
    that returned [nil]. *)
Definition migrated {W : Type} (h : Handler W) (srcHub destHub : Registry)
    (srcRepo destRepo : string) (hp : Heap) (layer : FSLayer)
    (t : list Entry) : Prop :=
  exists w : W,
    t = trace (run h (migrateLayer srcHub destHub srcRepo destRepo layer) hp w)
    /\ outcome (run h (migrateLayer srcHub destHub srcRepo destRepo layer) hp w)
       = Returned None.

(** ** More doubles *)

(** The existence query fails; the temporary file cannot be created. *)
Definition query_fault : Faults :=
  {| fail_HasLayer := true; fail_TempFile := false; fail_Download := false;
     fail_Copy := false; fail_Open := false; fail_Upload := false;
     fail_Remove := false; unreachable := []; token := token no_faults;
     proxy := proxy no_faults; base64_table := base64_table no_faults;
     served := served no_faults |}.

Definition tempfile_fault : Faults :=
  {| fail_HasLayer := false; fail_TempFile := true; fail_Download := false;
     fail_Copy := false; fail_Open := false; fail_Upload := false;
     fail_Remove := false; unreachable := []; token := token no_faults;
     proxy := proxy no_faults; base64_table := base64_table no_faults;
     served := served no_faults |}.

(** A handler that answers as [h] does, except that the source knows no
    manifest. *)
Definition without_manifest {W : Type} (h : Handler W) : Handler W :=
  fun X e w =>
    match e in Event T return T * W -> T * W with
    | hub_Manifest _ _ _ => fun a => (Err "manifest unknown", snd a)
    | _ => fun a => a
    end (h X e w).

(** A handler that answers as [h] does, except that the token service
    answers with no authorization data. *)
Definition without_authorization_data {W : Type} (h : Handler W) : Handler W :=
  fun X e w =>
    match e in Event T return T * W -> T * W with
    | GetAuthorizationToken _ _ =>
        fun a => (Ok {| AuthorizationData := [] |}, snd a)
    | _ => fun a => a
    end (h X e w).

Definition temp_file : File := {| File_Name := "/tmp/docker-image042"; fd := 3 |}.

(** Arguments with an empty registry URL, which the double refuses. *)
Definition args_without_url : RepositoryArguments :=
  {| RegistryURL := ""; Repository := "team/app"; RepoTag := "latest" |}.

(** * Properties *)

(** Symbolic execution of a run: take the answer of the next call, then
    split on it where the program does. *)
Ltac exec_with h simp :=
  repeat (simp;
          match goal with
          | |- context [h ?X ?e ?w] => destruct (h X e w) as [? ?]
          | |- context [match ?r with Ok _ => _ | Err _ => _ end] =>
              is_var r; destruct r
          | |- context [match ?r with Some _ => _ | None => _ end] =>
              is_var r; destruct r
          | |- context [if negb ?b then _ else _] => is_var b; destruct b
          | |- context [snd ?c] => is_var c; destruct c
          | x : unit |- _ => destruct x
          end).

Ltac exec h := exec_with h ltac:(cbn -[String.append String.prefix] in * ).

(** A fact about all entries of one kind, by cases on the call. *)
Ltac by_kind :=
  let en := fresh "en" in
  intros en; destruct en as [? [] ?]; cbv; intros; congruence.

Lemma count_app f (l1 l2 : list Entry) :
  count f (l1 ++ l2) = count f l1 + count f l2.
Proof. unfold count. rewrite List.filter_app, length_app. reflexivity. Qed.

Lemma existsb_none (f g : Entry -> bool) (tr : list Entry) :
  (forall en, f en = true -> g en = false) ->
  forallb f tr = true -> existsb g tr = false.
Proof.
  intros Hfg. induction tr as [|en tr IH]; simpl; [reflexivity|].
  intros H. apply andb_prop in H as [H1 H2].
  rewrite (Hfg _ H1), (IH H2). reflexivity.
Qed.

Lemma count_none (f g : Entry -> bool) (tr : list Entry) :
  (forall en, f en = true -> g en = false) ->
  forallb f tr = true -> count g tr = 0.
Proof.
  intros Hfg. unfold count. induction tr as [|en tr IH]; simpl; [reflexivity|].
  intros H. apply andb_prop in H as [H1 H2].
  rewrite (Hfg _ H1). auto.
Qed.

Lemma forallb_weaken (f g : Entry -> bool) (tr : list Entry) :
  (forall en, f en = true -> g en = true) ->
  forallb f tr = true -> forallb g tr = true.
Proof.
  intros Hfg. induction tr as [|en tr IH]; simpl; [reflexivity|].
  intros H. apply andb_prop in H as [H1 H2].
  rewrite (Hfg _ H1), (IH H2). reflexivity.
Qed.

Section Layers.
Context {W : Type} (h : Handler W).

Lemma run_bind {A B : Type} (m : Prog A) (f : A -> Prog B) hp w :
  run h (bind m f) hp w
  = then_run (run h m hp w) (fun a hp' w' => run h (f a) hp' w').
Proof.
  revert hp w.
  induction m as [a|msg|X e k IH|v k IH|p k IH|p v k IH]; intros hp w; simpl.
  - unfold then_run; simpl. destruct (run h (f a) hp w); reflexivity.
  - reflexivity.
  - destruct (h X e w) as [x w']. rewrite IH. unfold then_run; simpl.
    destruct (outcome (run h (k x) hp w')); reflexivity.
  - apply IH.
  - destruct (hp !! p); [apply IH | reflexivity].
  - destruct (hp !! p); [apply IH | reflexivity].
Qed.

(** [moveLayerUsingFile] always returns, downloads once, and uploads
    once unless its download step failed. *)
Lemma moveLayerUsingFile_run srcHub destHub srcRepo destRepo layer file hp w :
  let mv := run h (moveLayerUsingFile srcHub destHub srcRepo destRepo layer
                     file) hp w in
  (exists err, outcome mv = Returned err)
  /\ heap mv = hp
  /\ forallb is_transfer_call (trace mv) = true
  /\ count is_DownloadLayer (trace mv) = 1
  /\ count is_UploadLayer (trace mv)
     = (if existsb download_step_failed (trace mv) then 0 else 1).
Proof.
  unfold moveLayerUsingFile. exec h; repeat split; eauto.
Qed.

(** The run of [migrateLayer] for an absent layer, once the temporary
    file exists: the transfer, then the removal. *)
Lemma migrateLayer_absent srcHub destHub srcRepo destRepo layer hp w :
  let r := run h (migrateLayer srcHub destHub srcRepo destRepo layer) hp w in
  existsb (HasLayer_answered false) (trace r) = true ->
  existsb TempFile_created (trace r) = true ->
  exists tempFile w1 removeErr,
    let mv := run h (moveLayerUsingFile srcHub destHub srcRepo destRepo
                       layer tempFile) hp w1 in
    trace r
    = [ Called (fmt_Print ("Checking if manifest layer exists in destination registery" +:+ newline)) tt;
        Called (HasLayer destHub destRepo (BlobSum layer)) (Ok false);
        Called (fmt_Print ("Need to upload layer " +:+ BlobSum layer
                           +:+ " to the destination" +:+ newline)) tt;
        Called (ioutil_TempFile "" "docker-image") (Ok tempFile) ]
      ++ trace mv ++ remove_log tempFile removeErr
    /\ outcome r = outcome mv
    /\ heap r = hp.
Proof.
  unfold migrateLayer.
  exec_with h
    ltac:(cbn -[String.append String.prefix moveLayerUsingFile] in * );
    intros H1 H2; try discriminate H1; try discriminate H2.
  rewrite run_bind.
  match goal with
  | |- context [run h (moveLayerUsingFile ?a ?b ?c ?d ?e ?f) ?hp ?w] =>
      destruct (moveLayerUsingFile_run a b c d e f hp w)
        as ([err Hout] & Hheap & _);
      exists f, w;
      remember (run h (moveLayerUsingFile a b c d e f) hp w) as mv eqn:Hmv;
      clear Hmv
  end.
  unfold then_run. cbn zeta. rewrite Hout.
  exec_with h ltac:(cbn -[String.append String.prefix] in * );
    match goal with
    | |- context [Called (os_Remove _) ?x] => exists x
    end; (split; [|split]); try reflexivity; try assumption;
    rewrite Hout; reflexivity.
Qed.

(** C1: when the destination answers that it has the layer,
    [migrateLayer] returns [nil] after the existence query alone: no
    [DownloadLayer], no [UploadLayer], nothing but the query and two
    printed lines; migrating an already migrated layer is a skip. *)
Theorem migrateLayer_present_is_skipped
    srcHub destHub srcRepo destRepo layer hp w :
  let r := run h (migrateLayer srcHub destHub srcRepo destRepo layer) hp w in
  existsb (HasLayer_answered true) (trace r) = true ->
  outcome r = Returned None
  /\ count is_DownloadLayer (trace r) = 0
  /\ count is_UploadLayer (trace r) = 0
  /\ trace r
     = [ Called (fmt_Print ("Checking if manifest layer exists in destination registery" +:+ newline)) tt;
         Called (HasLayer destHub destRepo (BlobSum layer)) (Ok true);
         Called (fmt_Print ("Layer already exists in the destination"
                            +:+ newline)) tt ]
  /\ heap r = hp.
Proof.
  unfold migrateLayer, moveLayerUsingFile.
  exec h; intros H; try discriminate H; repeat split; reflexivity.
Qed.

(** C2, as the code has it: for a layer the destination answers it does
    not have, once the temporary file is created, [migrateLayer] calls
    [DownloadLayer] exactly once and [UploadLayer] at most once (exactly
    once when download, copy and reopening succeed, never otherwise);
    [os.Remove] of that file is called exactly once, after the transfer
    whatever its outcome; the value returned is the transfer's, so a
    failed removal is printed and never returned. *)
Theorem migrateLayer_absent_transfers_and_removes
    srcHub destHub srcRepo destRepo layer hp w :
  let r := run h (migrateLayer srcHub destHub srcRepo destRepo layer) hp w in
  existsb (HasLayer_answered false) (trace r) = true ->
  existsb TempFile_created (trace r) = true ->
  exists tempFile w1 removeErr,
    let mv := run h (moveLayerUsingFile srcHub destHub srcRepo destRepo
                       layer tempFile) hp w1 in
    trace r
    = [ Called (fmt_Print ("Checking if manifest layer exists in destination registery" +:+ newline)) tt;
        Called (HasLayer destHub destRepo (BlobSum layer)) (Ok false);
        Called (fmt_Print ("Need to upload layer " +:+ BlobSum layer
                           +:+ " to the destination" +:+ newline)) tt;
        Called (ioutil_TempFile "" "docker-image") (Ok tempFile) ]
      ++ trace mv ++ remove_log tempFile removeErr
    /\ outcome r = outcome mv
    /\ count is_DownloadLayer (trace r) = 1
    /\ count is_UploadLayer (trace r)
       = (if existsb download_step_failed (trace r) then 0 else 1)
    /\ count is_os_Remove (trace r) = 1.
Proof.
  intros r H1 H2.
  destruct (migrateLayer_absent srcHub destHub srcRepo destRepo layer hp w
              H1 H2) as (tempFile & w1 & removeErr & Htr & Hout & _).
  exists tempFile, w1, removeErr. cbn zeta in *. fold r in Htr, Hout |- *.
  destruct (moveLayerUsingFile_run srcHub destHub srcRepo destRepo layer
              tempFile hp w1) as (_ & _ & Hkind & Hdl & Hul).
  cbn zeta in *.
  set (mv := run h (moveLayerUsingFile srcHub destHub srcRepo destRepo
                      layer tempFile) hp w1) in *.
  assert (Hrm : count is_os_Remove (trace mv) = 0)
    by (apply (count_none is_transfer_call); [by_kind | exact Hkind]).
  split; [exact Htr|]. split; [exact Hout|].
  rewrite Htr.
  change (?a :: ?b :: ?c :: ?d :: ?l ++ ?l')
    with ([a; b; c; d] ++ l ++ l').
  rewrite !existsb_app, !count_app, Hdl, Hul, Hrm.
  destruct (existsb download_step_failed (trace mv));
    destruct removeErr; repeat split; reflexivity.
Qed.

(** C10: when the download step of a transfer fails ([DownloadLayer],
    the copy into the temporary file, or reopening that file returns an
    error), [migrateLayer] never calls [UploadLayer] nor any other call
    that writes to a registry, and it returns an error. *)
Theorem download_failure_never_uploads
    srcHub destHub srcRepo destRepo layer hp w :
  let r := run h (migrateLayer srcHub destHub srcRepo destRepo layer) hp w in
  existsb download_step_failed (trace r) = true ->
  count is_UploadLayer (trace r) = 0
  /\ count is_registry_write (trace r) = 0
  /\ exists msg, outcome r = Returned (Some msg).
Proof.
  unfold migrateLayer, moveLayerUsingFile.
  exec h; intros H; try discriminate H; repeat split; eauto.
Qed.

End Layers.

(** The destination already has the layer: one query, no transfer. *)
Lemma migrateLayer_present_is_skipped_witness :
  let r := run (double no_faults)
             (migrateLayer src_hub dest_hub "team/app" "mirror/app" layer1)
             [] world_with_d1 in
  existsb (HasLayer_answered true) (trace r) = true
  /\ outcome r = Returned None
  /\ count is_DownloadLayer (trace r) = 0
  /\ count is_UploadLayer (trace r) = 0.
Proof.
  cbv zeta. split; [reflexivity|].
  destruct (migrateLayer_present_is_skipped (double no_faults)
              src_hub dest_hub "team/app" "mirror/app" layer1 [] world_with_d1
              eq_refl) as (Ho & Hd & Hu & _).
  repeat split; assumption.
Defined.

(** Upload and removal both fail: the file is still removed once, and the
    error returned is the upload's. *)
Lemma migrateLayer_absent_transfers_and_removes_witness :
  let r := run (double (faulty false false false true true []))
             (migrateLayer src_hub dest_hub "team/app" "mirror/app" layer1)
             [] empty_world in
  existsb (HasLayer_answered false) (trace r) = true
  /\ existsb TempFile_created (trace r) = true
  /\ count is_DownloadLayer (trace r) = 1
  /\ count is_os_Remove (trace r) = 1.
Proof.
  cbv zeta. split; [reflexivity|]. split; [reflexivity|].
  destruct (migrateLayer_absent_transfers_and_removes
              (double (faulty false false false true true []))
              src_hub dest_hub "team/app" "mirror/app" layer1 [] empty_world
              eq_refl eq_refl) as (f & w1 & e & _ & _ & Hd & _ & Hr).
  split; assumption.
Defined.

(** C2 as stated fails: the layer is absent, the download fails, and there
    is one download but no upload. *)
Lemma migrateLayer_absent_download_fails_no_upload :
  let r := run (double (faulty true false false false false []))
             (migrateLayer src_hub dest_hub "team/app" "mirror/app" layer1)
             [] empty_world in
  existsb (HasLayer_answered false) (trace r) = true
  /\ count is_DownloadLayer (trace r) = 1
  /\ count is_UploadLayer (trace r) = 0
  /\ ~ (count is_DownloadLayer (trace r) = 1
        /\ count is_UploadLayer (trace r) = 1).
Proof.
  cbv zeta. repeat split. intros [_ H]. discriminate H.
Qed.

(** The copy into the temporary file fails: nothing is uploaded. *)
Lemma download_failure_never_uploads_witness :
  let r := run (double (faulty false true false false false []))
             (migrateLayer src_hub dest_hub "team/app" "mirror/app" layer1)
             [] empty_world in
  existsb download_step_failed (trace r) = true
  /\ count is_UploadLayer (trace r) = 0.
Proof.
  cbv zeta. split; [reflexivity|].
  apply (download_failure_never_uploads
           (double (faulty false true false false false []))
           src_hub dest_hub "team/app" "mirror/app" layer1 [] empty_world
           eq_refl).
Defined.
(** ** Strings and the regular expression *)

Lemma Split_cut_first s sep :
  Strings.Split s sep
  = match cut_first s sep with
    | Some (a, b) => a :: Strings.Split b sep
    | None => [ s ]
    end.
Proof.
  induction s as [|c s IH]; simpl; [reflexivity|].
  destruct (Ascii.eqb c sep); [reflexivity|].
  rewrite IH. destruct (cut_first s sep) as [[a b]|]; reflexivity.
Qed.

Lemma cut_first_None s sep :
  cut_first s sep = None <-> Strings.contains sep s = false.
Proof.
  induction s as [|c s IH]; simpl; [tauto|].
  destruct (Ascii.eqb c sep); simpl; [split; discriminate|].
  rewrite <- IH. destruct (cut_first s sep) as [[a b]|]; split; congruence.
Qed.

Lemma cut_first_Some s sep a b :
  cut_first s sep = Some (a, b) ->
  s = a +:+ String sep b /\ Strings.contains sep a = false.
Proof.
  revert a. induction s as [|c s IH]; simpl; intros a H; [discriminate|].
  destruct (Ascii.eqb c sep) eqn:E.
  - apply Ascii.eqb_eq in E. injection H as <- <-. subst. split; reflexivity.
  - destruct (cut_first s sep) as [[a' b']|]; [|discriminate].
    injection H as <- <-. destruct (IH a' eq_refl) as [-> Hc].
    simpl. rewrite E, Hc. split; reflexivity.
Qed.

Lemma Split_without_separator s sep :
  Strings.contains sep s = false -> Strings.Split s sep = [ s ].
Proof.
  intros H. rewrite Split_cut_first.
  apply cut_first_None in H. rewrite H. reflexivity.
Qed.

Lemma match_here_shape s m :
  Regexp.match_here s = Some m ->
  exists account_id region,
    m = [ account_id +:+ ".dkr.ecr." +:+ region +:+ ".amazonaws.com";
          account_id; region ].
Proof.
  unfold Regexp.match_here.
  destruct (Strings.take_n _ _ _) as [[a s1]|]; [|discriminate].
  destruct (Strings.strip_prefix _ s1) as [s2|]; [|discriminate].
  destruct (Strings.span _ s2) as [r s3].
  destruct r as [|c r]; [discriminate|].
  destruct (Strings.strip_prefix _ s3); [|discriminate].
  intros H. injection H as <-. eauto.
Qed.

Lemma scan_shape s : forall skip m,
  In m (Regexp.scan s skip) -> exists whole account_id region,
    m = [ whole; account_id; region ].
Proof.
  induction s as [|c s IH]; intros skip m; simpl; [tauto|].
  destruct skip as [|k]; [|apply IH].
  destruct (Regexp.match_here (String c s)) as [m'|] eqn:E; [|apply IH].
  intros [<-|H]; [|eapply IH; exact H].
  apply match_here_shape in E as (a & r & ->). eauto.
Qed.

Lemma FindAllStringSubmatch_first url m0 ms :
  Regexp.FindAllStringSubmatch url = m0 :: ms ->
  exists whole account_id region, m0 = [ whole; account_id; region ].
Proof.
  intros H. apply (scan_shape url 0). unfold Regexp.FindAllStringSubmatch in H.
  rewrite H. left. reflexivity.
Qed.

(** *** The matcher against the expression

    A match at the start of [s] is exactly: twelve digits, [.dkr.ecr.], a
    non-empty run of region bytes, [.amazonaws.com]. *)

Lemma take_n_sound f n s a b :
  Strings.take_n f n s = Some (a, b) ->
  s = a +:+ b /\ String.length a = n /\ Strings.all_bytes f a = true.
Proof.
  revert s a b. induction n as [|n IH]; intros s a b; simpl.
  - intros H. injection H as <- <-. auto.
  - destruct s as [|c s]; [discriminate|].
    destruct (f c) eqn:Ec; [|discriminate].
    destruct (Strings.take_n f n s) as [[a' b']|] eqn:E; [|discriminate].
    intros H. injection H as <- <-.
    destruct (IH _ _ _ E) as (-> & <- & Ha).
    simpl. rewrite Ec, Ha. auto.
Qed.

Lemma take_n_complete f a b :
  Strings.all_bytes f a = true ->
  Strings.take_n f (String.length a) (a +:+ b) = Some (a, b).
Proof.
  induction a as [|c a IH]; simpl; [reflexivity|].
  intros H. apply andb_prop in H as [Hc Ha].
  rewrite Hc, (IH Ha). reflexivity.
Qed.

Lemma strip_prefix_sound p s t :
  Strings.strip_prefix p s = Some t -> s = p +:+ t.
Proof.
  revert s. induction p as [|a p IH]; intros s; simpl.
  - intros H. injection H as <-. reflexivity.
  - destruct s as [|b s]; [discriminate|].
    destruct (Ascii.eqb a b) eqn:E; [|discriminate].
    apply Ascii.eqb_eq in E. subst b. intros H. rewrite (IH _ H). reflexivity.
Qed.

Lemma strip_prefix_complete p t :
  Strings.strip_prefix p (p +:+ t) = Some t.
Proof.
  induction p as [|a p IH]; simpl; [reflexivity|].
  rewrite Ascii.eqb_refl. exact IH.
Qed.

Lemma span_sound f s a b :
  Strings.span f s = (a, b) ->
  s = a +:+ b /\ Strings.all_bytes f a = true.
Proof.
  revert a b. induction s as [|c s IH]; intros a b; simpl.
  - intros H. injection H as <- <-. auto.
  - destruct (f c) eqn:Ec.
    + destruct (Strings.span f s) as [a' b'] eqn:E.
      intros H. injection H as <- <-.
      destruct (IH _ _ eq_refl) as (-> & Ha). simpl. rewrite Ec, Ha. auto.
    + intros H. injection H as <- <-. auto.
Qed.

Lemma span_complete f a c b :
  Strings.all_bytes f a = true -> f c = false ->
  Strings.span f (a +:+ String c b) = (a, String c b).
Proof.
  intros Ha Hc. induction a as [|x a IH]; simpl.
  - rewrite Hc. reflexivity.
  - simpl in Ha. apply andb_prop in Ha as [Hx Ha].
    rewrite Hx, (IH Ha). reflexivity.
Qed.

Lemma match_here_sound s m :
  Regexp.match_here s = Some m ->
  exists account_id region rest,
    m = [ account_id +:+ ".dkr.ecr." +:+ region +:+ ".amazonaws.com";
          account_id; region ]
    /\ String.length account_id = 12
    /\ Strings.all_bytes Regexp.is_digit account_id = true
    /\ region <> ""
    /\ Strings.all_bytes Regexp.is_region_byte region = true
    /\ s = account_id +:+ ".dkr.ecr." +:+ region +:+ ".amazonaws.com"
           +:+ rest.
Proof.
  unfold Regexp.match_here.
  destruct (Strings.take_n _ _ _) as [[a s1]|] eqn:E1; [|discriminate].
  destruct (Strings.strip_prefix _ s1) as [s2|] eqn:E2; [|discriminate].
  destruct (Strings.span _ s2) as [r s3] eqn:E3.
  destruct r as [|c r]; [discriminate|].
  destruct (Strings.strip_prefix _ s3) as [rest|] eqn:E4; [|discriminate].
  intros H. injection H as <-.
  apply take_n_sound in E1 as (-> & Hlen & Hdig).
  apply strip_prefix_sound in E2 as ->.
  apply span_sound in E3 as (-> & Hreg).
  apply strip_prefix_sound in E4 as ->.
  exists a, (String c r), rest.
  repeat split; try assumption; try discriminate.
Qed.

Lemma match_here_complete account_id region rest :
  String.length account_id = 12 ->
  Strings.all_bytes Regexp.is_digit account_id = true ->
  region <> "" ->
  Strings.all_bytes Regexp.is_region_byte region = true ->
  Regexp.match_here (account_id +:+ ".dkr.ecr." +:+ region
                     +:+ ".amazonaws.com" +:+ rest)
  = Some [ account_id +:+ ".dkr.ecr." +:+ region +:+ ".amazonaws.com";
           account_id; region ].
Proof.
  intros Hlen Hdig Hne Hreg. unfold Regexp.match_here.
  rewrite <- Hlen at 1. rewrite (take_n_complete _ _ _ Hdig).
  rewrite strip_prefix_complete.
  change (".amazonaws.com" +:+ rest)
    with (String "." ("amazonaws.com" +:+ rest)).
  rewrite (span_complete Regexp.is_region_byte region "."
             ("amazonaws.com" +:+ rest) Hreg eq_refl).
  destruct region as [|c r]; [congruence|].
  change (String "." ("amazonaws.com" +:+ rest))
    with (".amazonaws.com" +:+ rest).
  rewrite strip_prefix_complete. reflexivity.
Qed.

(** The expression is searched everywhere in the URL: there is no match
    exactly when no suffix of the URL starts with one. *)
Lemma FindAllStringSubmatch_none url :
  Regexp.FindAllStringSubmatch url = []
  <-> forall pre suf, url = pre +:+ suf -> Regexp.match_here suf = None.
Proof.
  unfold Regexp.FindAllStringSubmatch.
  induction url as [|c url IH]; simpl.
  - split; [|reflexivity]. intros _ pre suf H.
    destruct pre; [|discriminate]. change ("" +:+ suf) with suf in H.
    subst suf. reflexivity.
  - destruct (Regexp.match_here (String c url)) as [m|] eqn:E.
    + split; [discriminate|]. intros H.
      specialize (H "" (String c url) eq_refl). congruence.
    + rewrite IH. split.
      * intros H pre suf Hs. destruct pre as [|x pre].
        -- change ("" +:+ suf) with suf in Hs. subst suf. exact E.
        -- change (String x pre +:+ suf) with (String x (pre +:+ suf)) in Hs.
           injection Hs as _ Hs. exact (H pre suf Hs).
      * intros H pre suf Hs. apply (H (String c pre) suf).
        rewrite Hs. reflexivity.
Qed.

Ltac exec_connect h :=
  repeat (cbn -[String.append String.prefix Strings.Split Regexp.FindAllStringSubmatch] in *;
          match goal with
          | |- context [h ?X ?e ?w] => destruct (h X e w) as [? ?]
          | |- context [match ?r with Ok _ => _ | Err _ => _ end] =>
              is_var r; destruct r
          | |- context [match ?r with Some _ => _ | None => _ end] =>
              is_var r; destruct r
          | |- context [AuthorizationData ?r] =>
              is_var r; destruct r as [[|? ?]]
          | |- context [AuthorizationToken ?a] =>
              is_var a; destruct a as [[?|] [?|]]
          | |- context [Strings.Split ?d ?c] =>
              is_var d; destruct (Strings.Split d c) as [|? [|? ?]] eqn:?
          | x : unit |- _ => destruct x
          end).

Section Connect.
Context {W : Type} (h : Handler W).


(** The token has no [":"]: [parts[1]] is out of range (or the proxy
    endpoint is [nil]) and the function panics before any connection is
    built. *)
Lemma connectToRegistry_token_without_separator args hp w :
  let r := run h (connectToRegistry args) hp w in
  Regexp.FindAllStringSubmatch (RegistryURL args) <> [] ->
  existsb decoded_without_separator (trace r) = true ->
  (exists msg, outcome r = Panicked msg)
  /\ endpoint_of (trace r) = None.
Proof.
  unfold connectToRegistry, connectToRegistry_credentials.
  destruct (Regexp.FindAllStringSubmatch (RegistryURL args))
    as [|m0 ms] eqn:Hm; [intros r H; congruence|].
  destruct (FindAllStringSubmatch_first _ _ _ Hm) as (whole & a & r & ->).
  exec_connect h; intros _ H; try discriminate H;
    try (split; [eexists|]; reflexivity);
    repeat match goal with
           | H : (negb _ || _) = true |- _ => rewrite orb_false_r in H
           | H : negb _ = true |- _ => apply negb_true_iff in H
           | H : Strings.contains _ _ = false |- _ =>
               apply Split_without_separator in H
           end; congruence.
Qed.


(** C6: for a URL the pattern does not match, [connectToRegistry] builds
    the connection on the original URL with empty username and empty
    password, as its first call, and never calls the credential exchange
    (no session, no token request, no decoding). *)
Theorem unmanaged_registry_passes_through args hp w :
  let r := run h (connectToRegistry args) hp w in
  Regexp.FindAllStringSubmatch (RegistryURL args) = [] ->
  endpoint_of (trace r) = Some (RegistryURL args, "", "")
  /\ count is_credential_exchange (trace r) = 0
  /\ (exists rr tl,
        trace r = Called (registry_New (RegistryURL args) "" "") rr :: tl)
  /\ run h (connectToRegistry_credentials (RegistryURL args)) hp w
     = {| outcome := Returned (Ok (RegistryURL args, "", ""));
          heap := hp; world := w; trace := [] |}.
Proof.
  cbv zeta. intros Hm.
  unfold connectToRegistry, connectToRegistry_credentials. rewrite Hm.
  exec_connect h; repeat split; eauto.
Qed.


End Connect.

(** ** The whole migration *)

Lemma lookup_snoc {A : Type} (l : list A) (x : A) :
  (l ++ [ x ]) !! length l = Some x.
Proof. induction l as [|y l IH]; simpl; [reflexivity | exact IH]. Qed.

Lemma insert_snoc {A : Type} (l : list A) (x y : A) :
  <[ length l := y ]> (l ++ [ x ]) = l ++ [ y ].
Proof.
  induction l as [|z l IH]; simpl; [reflexivity|].
  f_equal. exact IH.
Qed.

Lemma fetched_of_app (t1 t2 : list Entry) :
  fetched_of (t1 ++ t2)
  = match fetched_of t1 with Some m => Some m | None => fetched_of t2 end.
Proof.
  induction t1 as [|[X e x] t1 IH]; simpl; [reflexivity|].
  destruct e; try exact IH. destruct x; [reflexivity | exact IH].
Qed.

Lemma published_of_app (t1 t2 : list Entry) :
  published_of (t1 ++ t2)
  = match published_of t1 with Some m => Some m | None => published_of t2 end.
Proof.
  induction t1 as [|[X e x] t1 IH]; simpl; [reflexivity|].
  destruct e; try exact IH. reflexivity.
Qed.

Lemma fetched_of_none (f : Entry -> bool) (tr : list Entry) :
  (forall en, f en = true -> is_hub_Manifest en = false) ->
  forallb f tr = true -> fetched_of tr = None.
Proof.
  intros Hf. induction tr as [|[X e x] tr IH]; simpl; [reflexivity|].
  intros H. apply andb_prop in H as [H1 H2]. apply Hf in H1.
  destruct e; try (apply IH; exact H2). discriminate H1.
Qed.

Lemma published_of_none (f : Entry -> bool) (tr : list Entry) :
  (forall en, f en = true -> is_PutManifest en = false) ->
  forallb f tr = true -> published_of tr = None.
Proof.
  intros Hf. induction tr as [|[X e x] tr IH]; simpl; [reflexivity|].
  intros H. apply andb_prop in H as [H1 H2]. apply Hf in H1.
  destruct e; try (apply IH; exact H2). discriminate H1.
Qed.

Section Migration.
Context {W : Type} (h : Handler W).

(** [connectToRegistry] makes connection calls only, leaves the heap
    alone, and succeeds only right after a successful ping. *)
Lemma connectToRegistry_run args hp w :
  let r := run h (connectToRegistry args) hp w in
  forallb is_connect_call (trace r) = true
  /\ heap r = hp
  /\ (forall hub, outcome r = Returned (Ok hub) ->
      last (trace r) = Some (Called (Ping hub) None)).
Proof.
  unfold connectToRegistry, connectToRegistry_credentials.
  destruct (Regexp.FindAllStringSubmatch (RegistryURL args))
    as [|m0 ms] eqn:Hm.
  - exec_connect h; repeat split; try reflexivity;
      intros hub Hh; try discriminate Hh; injection Hh as <-; reflexivity.
  - destruct (FindAllStringSubmatch_first _ _ _ Hm) as (whole & a & r & ->).
    exec_connect h; repeat split; try reflexivity;
      intros hub Hh; try discriminate Hh; injection Hh as <-; reflexivity.
Qed.

(** [migrateLayer] always returns, leaves the heap alone, and makes
    layer-loop calls only. *)
Lemma migrateLayer_run srcHub destHub srcRepo destRepo layer hp w :
  let r := run h (migrateLayer srcHub destHub srcRepo destRepo layer) hp w in
  forallb is_layer_loop_call (trace r) = true
  /\ heap r = hp
  /\ exists err, outcome r = Returned err.
Proof.
  unfold migrateLayer, moveLayerUsingFile.
  exec_with h ltac:(cbn in * ); repeat split; eauto.
Qed.

(** The layer loop: either it stops at the first failed layer, or the
    rest of [main] runs from the heap the loop started with. *)
Lemma main_layers_run srcHub destHub srcRepo destRepo rest layers :
  forall hp w,
    let r := run h (main_layers srcHub destHub srcRepo destRepo layers rest)
               hp w in
    exists t w',
      forallb is_layer_loop_call t = true
      /\ ((trace r = t /\ heap r = hp /\ outcome r = Returned (-1)%Z)
          \/ (let rr := run h rest hp w' in
              trace r = t ++ trace rr /\ heap r = heap rr
              /\ outcome r = outcome rr)).
Proof.
  induction layers as [|layer layers IH]; intros hp w; cbn zeta.
  - exists [], w. split; [reflexivity|]. right. simpl. auto.
  - cbn [main_layers]. rewrite run_bind.
    destruct (migrateLayer_run srcHub destHub srcRepo destRepo layer hp w)
      as (Hk & Hh & [err Ho]).
    remember (run h (migrateLayer srcHub destHub srcRepo destRepo layer)
                hp w) as ml eqn:Hml. clear Hml.
    unfold then_run. rewrite Ho. destruct err as [msg|].
    + exec_with h ltac:(cbn in * ).
      exists (trace ml ++ [ Called (fmt_Print ("Failed to migrate image layer. " +:+ msg)) tt ]), w0.
      split; [|left; rewrite Hh; auto].
      rewrite forallb_app, Hk. reflexivity.
    + rewrite Hh.
      destruct (IH hp (world ml)) as (t & w' & Ht & Hcase).
      exists (trace ml ++ t), w'. split; [rewrite forallb_app, Hk, Ht; reflexivity|].
      destruct Hcase as [(H1 & H2 & H3)|(H1 & H2 & H3)]; cbn [trace heap outcome].
      * left. rewrite H1, H2, H3. auto.
      * right. cbn zeta in *. rewrite H1, H2, H3, app_assoc. auto.
Qed.

(** The publish step for a source manifest stored at [p]. *)
Lemma main_publish_run destHub dest p src hp w :
  hp !! p = Some src ->
  let r := run h (main_publish destHub dest p) hp w in
  let pm := destManifest_for src (Repository dest) in
  exists perr tl,
    trace r = Called (PutManifest destHub (Repository dest) (RepoTag dest)
                        pm) perr :: tl
    /\ forallb is_fmt_Print tl = true
    /\ existsb (printed dest_failure) tl = false
    /\ heap r = hp ++ [ pm ]
    /\ outcome r = Returned (match perr with Some _ => (-1)%Z | None => 0%Z end).
Proof.
  intros Hp. unfold main_publish. cbn. rewrite Hp.
  cbn. rewrite lookup_snoc. cbn. rewrite insert_snoc, lookup_snoc.
  exec_with h ltac:(cbn in * ); eexists _, _; repeat split; reflexivity.
Qed.

Lemma layer_loop_not_dest_failure en :
  is_layer_loop_call en = true -> printed dest_failure en = false.
Proof.
  unfold is_layer_loop_call. intros H. apply andb_prop in H as [_ H].
  apply negb_true_iff in H. exact H.
Qed.

Lemma layer_loop_migrates en :
  is_layer_loop_call en = true -> is_migrate_call en = true.
Proof.
  unfold is_layer_loop_call. intros H. apply andb_prop in H as [H _].
  exact H.
Qed.

Lemma migrate_not_PutManifest en :
  is_layer_loop_call en = true -> is_PutManifest en = false.
Proof. intros H. apply layer_loop_migrates in H. revert en H. by_kind. Qed.

Lemma migrate_not_hub_Manifest en :
  is_layer_loop_call en = true -> is_hub_Manifest en = false.
Proof. intros H. apply layer_loop_migrates in H. revert en H. by_kind. Qed.

(** Fetching, migrating, publishing: never the report of a failed
    destination connection; and when a manifest is published, it is the
    renamed copy of the one fetched, stored in a new object. *)
Lemma main_transfer_run srcHub destHub src dest hp w :
  let r := run h (main_transfer srcHub destHub src dest) hp w in
  existsb (printed dest_failure) (trace r) = false
  /\ (existsb is_PutManifest (trace r) = true ->
      exists m,
        fetched_of (trace r) = Some m
        /\ published_of (trace r)
           = Some (destManifest_for m (Repository dest))
        /\ heap r = hp ++ [ m; destManifest_for m (Repository dest) ]).
Proof.
  unfold main_transfer. cbn -[main_publish main_layers].
  destruct (h _ (hub_Manifest srcHub (Repository src) (RepoTag src)) w)
    as [[m|err] w0]; cbn -[main_publish main_layers].
  - rewrite lookup_snoc.
    destruct (main_layers_run srcHub destHub (Repository src)
                (Repository dest)
                (main_publish destHub dest (length hp))
                (FSLayers (Manifest m)) (hp ++ [ m ]) w0)
      as (t & w' & Ht & Hcase).
    cbn zeta in Hcase.
    remember (run h (main_layers srcHub destHub (Repository src)
                       (Repository dest) (FSLayers (Manifest m))
                       (main_publish destHub dest (length hp)))
                (hp ++ [ m ]) w0) as rl eqn:Hrl. clear Hrl.
    destruct Hcase as [(H1 & H2 & H3)|(H1 & H2 & H3)].
    + rewrite H1. split.
      * apply (existsb_none is_layer_loop_call);
          [exact layer_loop_not_dest_failure | exact Ht].
      * intros H.
        rewrite (existsb_none is_layer_loop_call is_PutManifest t
                   migrate_not_PutManifest Ht) in H. discriminate H.
    + destruct (main_publish_run destHub dest (length hp) m (hp ++ [ m ]) w'
                  (lookup_snoc hp m))
        as (perr & tl & Hp1 & Hp2 & Hp3 & Hp4 & Hp5).
      cbn zeta in *. rewrite H1, H2, Hp1, Hp4. split.
      * rewrite existsb_app.
        rewrite (existsb_none is_layer_loop_call _ t
                   layer_loop_not_dest_failure Ht).
        cbn. exact Hp3.
      * intros _. exists m. split; [reflexivity|]. split.
        -- rewrite published_of_app.
           rewrite (published_of_none is_layer_loop_call t
                      migrate_not_PutManifest Ht). reflexivity.
        -- rewrite <- app_assoc. reflexivity.
  - destruct (h _ _ w0) as [[] w1]. cbn. split; [reflexivity|].
    intros H. discriminate H.
Qed.


Lemma connect_not_layer_op en :
  is_connect_call en = true -> is_layer_op en = false.
Proof. revert en. by_kind. Qed.

Lemma connect_not_PutManifest en :
  is_connect_call en = true -> is_PutManifest en = false.
Proof. revert en. by_kind. Qed.

Lemma connect_not_hub_Manifest en :
  is_connect_call en = true -> is_hub_Manifest en = false.
Proof. revert en. by_kind. Qed.

(** The fallback of [--repo]: the effective name is empty exactly when
    both flags are. *)
Lemma srcArgs_Repository_empty fl :
  Repository (srcArgs fl) = "" <-> src_repo fl = "" /\ repo fl = "".
Proof.
  unfold srcArgs; simpl. destruct (String.eqb (src_repo fl) "") eqn:E.
  - apply String.eqb_eq in E. tauto.
  - apply String.eqb_neq in E. tauto.
Qed.

Lemma destArgs_Repository_empty fl :
  Repository (destArgs fl) = "" <-> dest_repo fl = "" /\ repo fl = "".
Proof.
  unfold destArgs; simpl. destruct (String.eqb (dest_repo fl) "") eqn:E.
  - apply String.eqb_eq in E. tauto.
  - apply String.eqb_neq in E. tauto.
Qed.

(** Without a repository name [main] prints one line and returns. *)
Lemma main_without_repository fl hp w :
  let r := run h (main fl) hp w in
  Repository (srcArgs fl) = "" \/ Repository (destArgs fl) = "" ->
  outcome r = Returned (-1)%Z
  /\ heap r = hp
  /\ (trace r
      = [ Called (fmt_Print "A source repository name is required either with --src-repo or --repo") tt ]
      \/ trace r
         = [ Called (fmt_Print "A destination repository name is required either with --dest-repo or --repo") tt ]).
Proof.
  cbv zeta. unfold main. cbv zeta. intros H.
  destruct (String.eqb (Repository (srcArgs fl)) "") eqn:Es.
  - exec_with h ltac:(cbn -[srcArgs destArgs] in * ). auto.
  - destruct H as [H|H]; [rewrite H in Es; discriminate Es|].
    rewrite H.
    exec_with h ltac:(cbn -[srcArgs destArgs] in * ). auto.
Qed.

(** C7: when the source or the destination repository name is empty
    after the [--repo] fallback, [main] prints the line asking for it and
    exits with [-1]; that line is the whole trace, so no registry and no
    cloud call was made. *)
Theorem missing_repository_aborts_before_network fl hp w :
  let r := run h (main fl) hp w in
  Repository (srcArgs fl) = "" \/ Repository (destArgs fl) = "" ->
  os_Exit r = (-1)%Z
  /\ os_Exit r <> 0%Z
  /\ count is_network (trace r) = 0
  /\ (trace r
      = [ Called (fmt_Print "A source repository name is required either with --src-repo or --repo") tt ]
      \/ trace r
         = [ Called (fmt_Print "A destination repository name is required either with --dest-repo or --repo") tt ])
  /\ heap r = hp.
Proof.
  intros r H.
  destruct (main_without_repository fl hp w H) as (Ho & Hh & Ht).
  fold r in Ho, Hh, Ht. unfold os_Exit. rewrite Ho.
  repeat split; try assumption; try discriminate.
  destruct Ht as [-> | ->]; reflexivity.
Qed.

(** The run of [main] with both repository names, by the outcome of the
    two connections. *)
Lemma main_run fl hp w :
  Repository (srcArgs fl) <> "" -> Repository (destArgs fl) <> "" ->
  let r := run h (main fl) hp w in
  let r1 := run h (connectToRegistry (srcArgs fl)) hp w in
  match outcome r1 with
  | Panicked msg =>
      trace r = trace r1 /\ outcome r = Panicked msg /\ heap r = hp
  | Returned (Err err) =>
      trace r
      = trace r1
        ++ [ Called (fmt_Print ("Failed to establish a connection to the source registry. " +:+ err)) tt ]
      /\ outcome r = Returned (-1)%Z /\ heap r = hp
  | Returned (Ok srcHub) =>
      let r2 := run h (connectToRegistry (destArgs fl)) hp (world r1) in
      match outcome r2 with
      | Panicked msg =>
          trace r = trace r1 ++ trace r2 /\ outcome r = Panicked msg
          /\ heap r = hp
      | Returned (Err err) =>
          trace r
          = trace r1 ++ trace r2
            ++ [ Called (fmt_Print (dest_failure +:+ err)) tt ]
          /\ outcome r = Returned (-1)%Z /\ heap r = hp
      | Returned (Ok destHub) =>
          let rt := run h (main_transfer srcHub destHub (srcArgs fl)
                             (destArgs fl)) hp (world r2) in
          trace r = trace r1 ++ trace r2 ++ trace rt
          /\ outcome r = outcome rt /\ heap r = heap rt
      end
  end.
Proof.
  intros Hs Hd. cbv zeta. unfold main. cbv zeta.
  apply String.eqb_neq in Hs, Hd. rewrite Hs, Hd.
  rewrite run_bind.
  destruct (connectToRegistry_run (srcArgs fl) hp w) as (_ & Hh1 & _).
  cbv zeta in Hh1.
  set (r1 := run h (connectToRegistry (srcArgs fl)) hp w) in *.
  unfold then_run.
  destruct (outcome r1) as [[srcHub|err]|msg]; cbv beta iota zeta.
  - rewrite run_bind, Hh1.
    destruct (connectToRegistry_run (destArgs fl) hp (world r1))
      as (_ & Hh2 & _).
    cbv zeta in Hh2.
    set (r2 := run h (connectToRegistry (destArgs fl)) hp (world r1)) in *.
    unfold then_run.
    destruct (outcome r2) as [[destHub|err]|msg]; cbv beta iota zeta;
      cbn [trace outcome heap world]; rewrite ?Hh2.
    + auto.
    + cbn [bind call run]. destruct (h _ _ (world r2)) as [[] w'].
      cbn [trace outcome heap world logged app]. rewrite ?Hh2. auto.
    + rewrite ?Hh1. auto.
  - rewrite ?Hh1. cbn [bind call run].
    destruct (h _ _ (world r1)) as [[] w'].
    cbn [trace outcome heap world logged app]. auto.
  - cbn [trace outcome heap world]. auto.
Qed.


(** C3: whenever [main] reaches [PutManifest], the manifest it publishes
    has the layer sequence of the manifest fetched from the source, in
    the same order, and the same tag and remaining fields; its name is
    the destination repository name; it lives in a new object, and the
    object holding the source manifest still holds what was fetched. *)
Theorem published_manifest_is_renamed_copy fl hp w :
  let r := run h (main fl) hp w in
  existsb is_PutManifest (trace r) = true ->
  exists m pm,
    fetched_of (trace r) = Some m
    /\ published_of (trace r) = Some pm
    /\ FSLayers (Manifest pm) = FSLayers (Manifest m)
    /\ map BlobSum (FSLayers (Manifest pm))
       = map BlobSum (FSLayers (Manifest m))
    /\ Name (Manifest pm) = Repository (destArgs fl)
    /\ Tag (Manifest pm) = Tag (Manifest m)
    /\ otherFields (Manifest pm) = otherFields (Manifest m)
    /\ heap r = hp ++ [ m; pm ]
    /\ heap r !! length hp = Some m
    /\ heap r !! S (length hp) = Some pm.
Proof.
  intros r Hput.
  destruct (String.eqb_spec (Repository (srcArgs fl)) "") as [Hs|Hs].
  { destruct (main_without_repository fl hp w (or_introl Hs))
      as (_ & _ & Ht).
    fold r in Ht. destruct Ht as [Ht|Ht]; rewrite Ht in Hput;
      discriminate Hput. }
  destruct (String.eqb_spec (Repository (destArgs fl)) "") as [Hd|Hd].
  { destruct (main_without_repository fl hp w (or_intror Hd))
      as (_ & _ & Ht).
    fold r in Ht. destruct Ht as [Ht|Ht]; rewrite Ht in Hput;
      discriminate Hput. }
  pose proof (main_run fl hp w Hs Hd) as Hrun. cbv zeta in Hrun.
  fold r in Hrun.
  destruct (connectToRegistry_run (srcArgs fl) hp w) as (Hk1 & _ & _).
  cbv zeta in Hk1.
  set (r1 := run h (connectToRegistry (srcArgs fl)) hp w) in *.
  destruct (outcome r1) as [[srcHub|err]|msg] eqn:Ho1.
  - destruct (connectToRegistry_run (destArgs fl) hp (world r1))
      as (Hk2 & _ & _).
    cbv zeta in Hk2.
    set (r2 := run h (connectToRegistry (destArgs fl)) hp (world r1)) in *.
    destruct (outcome r2) as [[destHub|err]|msg] eqn:Ho2.
    + destruct Hrun as (Ht & _ & Hh).
      destruct (main_transfer_run srcHub destHub (srcArgs fl) (destArgs fl)
                  hp (world r2)) as (_ & Hq).
      cbv zeta in Hq.
      set (rt := run h (main_transfer srcHub destHub (srcArgs fl)
                          (destArgs fl)) hp (world r2)) in *.
      rewrite Ht, !existsb_app in Hput.
      rewrite (existsb_none _ _ _ connect_not_PutManifest Hk1) in Hput.
      rewrite (existsb_none _ _ _ connect_not_PutManifest Hk2) in Hput.
      destruct (Hq Hput) as (m & Hf & Hp & Hheap).
      exists m, (destManifest_for m (Repository (destArgs fl))).
      rewrite Ht, !fetched_of_app, !published_of_app.
      rewrite (fetched_of_none _ _ connect_not_hub_Manifest Hk1).
      rewrite (fetched_of_none _ _ connect_not_hub_Manifest Hk2).
      rewrite (published_of_none _ _ connect_not_PutManifest Hk1).
      rewrite (published_of_none _ _ connect_not_PutManifest Hk2).
      rewrite Hh, Hheap.
      repeat (split; [assumption || reflexivity|]).
      split.
      * change (hp ++ [ m; destManifest_for m (Repository (destArgs fl)) ])
          with (hp ++ m :: [ destManifest_for m (Repository (destArgs fl)) ]).
        apply list_lookup_middle. reflexivity.
      * change (hp ++ [ m; destManifest_for m (Repository (destArgs fl)) ])
          with (hp ++ [ m ] ++ [ destManifest_for m (Repository (destArgs fl)) ]).
        rewrite app_assoc.
        replace (S (length hp)) with (length (hp ++ [ m ]))
          by (rewrite length_app; simpl; lia).
        apply lookup_snoc.
    + destruct Hrun as (Ht & _).
      rewrite Ht, !existsb_app in Hput.
      rewrite (existsb_none _ _ _ connect_not_PutManifest Hk1) in Hput.
      rewrite (existsb_none _ _ _ connect_not_PutManifest Hk2) in Hput.
      discriminate Hput.
    + destruct Hrun as (Ht & _).
      rewrite Ht, !existsb_app in Hput.
      rewrite (existsb_none _ _ _ connect_not_PutManifest Hk1) in Hput.
      rewrite (existsb_none _ _ _ connect_not_PutManifest Hk2) in Hput.
      discriminate Hput.
  - destruct Hrun as (Ht & _).
    rewrite Ht, !existsb_app in Hput.
    rewrite (existsb_none _ _ _ connect_not_PutManifest Hk1) in Hput.
    discriminate Hput.
  - destruct Hrun as (Ht & _).
    rewrite Ht in Hput.
    rewrite (existsb_none _ _ _ connect_not_PutManifest Hk1) in Hput.
    discriminate Hput.
Qed.
End Migration.

(** ** The properties on concrete runs *)

(** Scenario A: the destination has the first of two layers; the manifest
    published keeps both layers in order. *)
Lemma published_manifest_is_renamed_copy_witness :
  let r := run (double no_faults) (main flags) [] world_with_d1 in
  existsb is_PutManifest (trace r) = true
  /\ exists m pm,
       fetched_of (trace r) = Some m
       /\ published_of (trace r) = Some pm
       /\ map BlobSum (FSLayers (Manifest pm))
          = map BlobSum (FSLayers (Manifest m))
       /\ Name (Manifest pm) = "mirror/app"
       /\ heap r !! 0 = Some m.
Proof.
  cbv zeta. split; [reflexivity|].
  destruct (published_manifest_is_renamed_copy (double no_faults) flags []
              world_with_d1 eq_refl)
    as (m & pm & Hf & Hp & _ & Hl & Hn & _ & _ & _ & Hm & _).
  exists m, pm. repeat split; assumption.
Defined.

(** No repository name at all: one printed line, exit code [-1]. *)
Lemma missing_repository_aborts_before_network_witness :
  let r := run (double no_faults) (main flags_without_repo) [] empty_world in
  (Repository (srcArgs flags_without_repo) = ""
   \/ Repository (destArgs flags_without_repo) = "")
  /\ os_Exit r = (-1)%Z
  /\ count is_network (trace r) = 0.
Proof.
  cbv zeta. split; [left; reflexivity|].
  destruct (missing_repository_aborts_before_network (double no_faults)
              flags_without_repo [] empty_world (or_introl eq_refl))
    as (He & _ & Hn & _).
  split; assumption.
Defined.




(** C5 fails on the code: the token decodes to [AWS], which has no [":"];
    [connectToRegistry] panics on [parts[1]] instead of returning an error,
    and [main], whose deferred [os.Exit] still sees [exitCode = 0], prints
    nothing and exits with [0]. *)
Theorem malformed_token_panics :
  let d := double (with_token "QVdT" no_faults) in
  let r := run d (connectToRegistry ecr_args) [] empty_world in
  let rm := run d (main ecr_flags) [] empty_world in
  Regexp.FindAllStringSubmatch (RegistryURL ecr_args) <> []
  /\ existsb decoded_without_separator (trace r) = true
  /\ outcome r = Panicked "runtime error: index out of range"
  /\ (forall err, outcome r <> Returned (Err err))
  /\ os_Exit rm = 0%Z
  /\ count is_fmt_Print (trace rm) = 0.
Proof.
  cbv zeta. split; [vm_compute; discriminate|].
  repeat split. intros err. vm_compute. discriminate.
Qed.

(** An ordinary registry URL. *)
Lemma unmanaged_registry_passes_through_witness :
  let r := run (double no_faults) (connectToRegistry (srcArgs flags)) []
             empty_world in
  Regexp.FindAllStringSubmatch (RegistryURL (srcArgs flags)) = []
  /\ endpoint_of (trace r) = Some ("https://src.example.com", "", "")
  /\ count is_credential_exchange (trace r) = 0.
Proof.
  cbv zeta. split; [reflexivity|].
  destruct (unmanaged_registry_passes_through (double no_faults)
              (srcArgs flags) [] empty_world eq_refl) as (He & Hc & _).
  split; assumption.
Defined.


Example Split_two : Strings.Split "AWS:secret" ":" = [ "AWS"; "secret" ].
Proof. reflexivity. Qed.

Example Split_three : Strings.Split "AWS:ab:cd" ":" = [ "AWS"; "ab"; "cd" ].
Proof. reflexivity. Qed.

Example Split_none : Strings.Split "AWS" ":" = [ "AWS" ].
Proof. reflexivity. Qed.

Example Split_empty : Strings.Split "" ":" = [ "" ].
Proof. reflexivity. Qed.

Example regexp_scenario_C :
  Regexp.FindAllStringSubmatch "123456789012.dkr.ecr.us-east-1.amazonaws.com"
  = [ [ "123456789012.dkr.ecr.us-east-1.amazonaws.com";
        "123456789012"; "us-east-1" ] ].
Proof. reflexivity. Qed.

Example regexp_unanchored :
  Regexp.FindAllStringSubmatch
    "https://9123456789012.dkr.ecr.eu_west.amazonaws.com/v2"
  = [ [ "123456789012.dkr.ecr.eu_west.amazonaws.com";
        "123456789012"; "eu_west" ] ].
Proof. reflexivity. Qed.

Example regexp_no_match :
  Regexp.FindAllStringSubmatch "https://registry.example.com" = [].
Proof. reflexivity. Qed.

(** * Further properties *)

(** ** One layer *)

Lemma Registry_eqb_refl a : Registry_eqb a a = true.
Proof.
  unfold Registry_eqb. rewrite String.eqb_refl, Nat.eqb_refl. reflexivity.
Qed.

Section OneLayer.
Context {W : Type} (h : Handler W).

(** X1: when the existence query fails, [migrateLayer] returns that error
    wrapped, right after the query: no temporary file, no transfer. *)
Theorem migrateLayer_query_failure srcHub destHub srcRepo destRepo layer hp w :
  let r := run h (migrateLayer srcHub destHub srcRepo destRepo layer) hp w in
  existsb HasLayer_failed (trace r) = true ->
  exists err,
    outcome r
    = Returned (Some ("Failure while checking if the destination registry contained an image layer. " +:+ err))
    /\ trace r
       = [ Called (fmt_Print ("Checking if manifest layer exists in destination registery" +:+ newline)) tt;
           Called (HasLayer destHub destRepo (BlobSum layer)) (Err err) ].
Proof.
  unfold migrateLayer, moveLayerUsingFile.
  exec h; intros H; try discriminate H; eexists; split; reflexivity.
Qed.

(** X2: when the temporary file cannot be created, [migrateLayer] returns
    that error wrapped and makes no transfer call and no removal. *)
Theorem migrateLayer_TempFile_failure
    srcHub destHub srcRepo destRepo layer hp w :
  let r := run h (migrateLayer srcHub destHub srcRepo destRepo layer) hp w in
  existsb TempFile_failed (trace r) = true ->
  (exists err,
     outcome r
     = Returned (Some ("Failure while creating temporary file for an image layer download. " +:+ err)))
  /\ count is_transfer_call (trace r) = 0
  /\ count is_os_Remove (trace r) = 0.
Proof.
  unfold migrateLayer, moveLayerUsingFile.
  exec h; intros H; try discriminate H; repeat split; eauto.
Qed.

(** X3: [migrateLayer] returns [nil] exactly when the destination
    answered that it has the layer or [UploadLayer] returned [nil]; the
    outcome of the removal plays no part. *)
Theorem migrateLayer_nil_iff_layer_at_destination
    srcHub destHub srcRepo destRepo layer hp w :
  let r := run h (migrateLayer srcHub destHub srcRepo destRepo layer) hp w in
  outcome r = Returned None
  <-> existsb (HasLayer_answered true) (trace r) = true
      \/ existsb (UploadLayer_returned true) (trace r) = true.
Proof.
  unfold migrateLayer, moveLayerUsingFile.
  exec h; split; intros H; try discriminate H; auto;
    destruct H as [H|H]; discriminate H.
Qed.

(** X4: a transfer that returns [nil] made exactly these calls in this
    order: download, copy into the file, close the download, sync the
    file, open the file again by its name, upload from the reopened file,
    close it.  What closing and syncing return is not looked at. *)
Theorem moveLayerUsingFile_nil_order
    srcHub destHub srcRepo destRepo layer file hp w :
  let mv := run h (moveLayerUsingFile srcHub destHub srcRepo destRepo layer
                     file) hp w in
  outcome mv = Returned None ->
  exists reader written closed synced reopened closed',
    trace mv
    = [ Called (DownloadLayer srcHub srcRepo (BlobSum layer)) (Ok reader);
        Called (io_Copy file reader) (written, None);
        Called (ReadCloser_Close reader) closed;
        Called (File_Sync file) synced;
        Called (os_Open (File_Name file)) (Ok reopened);
        Called (UploadLayer destHub destRepo (BlobSum layer) reopened) None;
        Called (File_Close reopened) closed' ].
Proof.
  unfold moveLayerUsingFile.
  exec h; intros H; try discriminate H; repeat eexists.
Qed.

(** X5: when [UploadLayer] fails, the reopened file is closed all the
    same, the temporary file is removed, and the error returned is the
    upload's, wrapped. *)
Theorem migrateLayer_upload_failure
    srcHub destHub srcRepo destRepo layer hp w :
  let r := run h (migrateLayer srcHub destHub srcRepo destRepo layer) hp w in
  existsb (UploadLayer_returned false) (trace r) = true ->
  (exists err,
     outcome r = Returned (Some ("Failure while uploading the image. "
                                 +:+ err)))
  /\ count is_File_Close (trace r) = 1
  /\ count is_os_Remove (trace r) = 1.
Proof.
  unfold migrateLayer, moveLayerUsingFile.
  exec h; intros H; try discriminate H; repeat split; eauto.
Qed.

(** X6: every layer call of [migrateLayer] is for the layer's digest;
    downloads go to the source hub and repository, existence queries and
    uploads to the destination hub and repository. *)
Theorem migrateLayer_routes_calls
    srcHub destHub srcRepo destRepo layer hp w :
  let r := run h (migrateLayer srcHub destHub srcRepo destRepo layer) hp w in
  forallb (routed srcHub destHub srcRepo destRepo (BlobSum layer)) (trace r)
  = true.
Proof.
  unfold migrateLayer, moveLayerUsingFile.
  exec h; rewrite ?Registry_eqb_refl, ?String.eqb_refl; reflexivity.
Qed.

(** X7: the download stream is closed exactly when the copy succeeded; a
    failed copy returns with the stream still open. *)
Theorem moveLayerUsingFile_closes_reader_after_copy
    srcHub destHub srcRepo destRepo layer file hp w :
  let mv := run h (moveLayerUsingFile srcHub destHub srcRepo destRepo layer
                     file) hp w in
  count is_ReadCloser_Close (trace mv)
  = (if existsb copy_succeeded (trace mv) then 1 else 0)
  /\ count is_File_Close (trace mv) = count is_UploadLayer (trace mv).
Proof.
  unfold moveLayerUsingFile. exec h; split; reflexivity.
Qed.

(** X8: [migrateLayer] downloads only after the destination answered that
    the layer is absent, and uploads only what it downloaded: there are
    never more uploads than downloads, nor more downloads than absent
    answers. *)
Theorem migrateLayer_transfers_only_absent
    srcHub destHub srcRepo destRepo layer hp w :
  let r := run h (migrateLayer srcHub destHub srcRepo destRepo layer) hp w in
  count is_UploadLayer (trace r) <= count is_DownloadLayer (trace r)
  /\ count is_DownloadLayer (trace r)
     <= count (HasLayer_answered false) (trace r)
  /\ count is_HasLayer (trace r) = 1.
Proof.
  unfold migrateLayer, moveLayerUsingFile.
  exec h; cbv [count]; simpl; lia.
Qed.

End OneLayer.

(** ** The layer loop and the whole migration *)

Lemma queried_app t1 t2 : queried (t1 ++ t2) = queried t1 ++ queried t2.
Proof.
  induction t1 as [|[X e x] t1 IH]; simpl; [reflexivity|].
  destruct e; simpl; rewrite IH; reflexivity.
Qed.

Lemma ensured_at_app hub repository t1 t2 :
  ensured_at hub repository (t1 ++ t2)
  = ensured_at hub repository t1 ++ ensured_at hub repository t2.
Proof.
  induction t1 as [|[X e x] t1 IH]; simpl; [reflexivity|].
  destruct e; simpl; try exact IH.
  - destruct x as [[|]|]; try exact IH.
    destruct (Registry_eqb hub0 hub && String.eqb repository0 repository);
      simpl; rewrite IH; reflexivity.
  - destruct x; try exact IH.
    destruct (Registry_eqb hub0 hub && String.eqb repository0 repository);
      simpl; rewrite IH; reflexivity.
Qed.

Lemma fetch_calls_app t1 t2 :
  fetch_calls (t1 ++ t2) = fetch_calls t1 ++ fetch_calls t2.
Proof.
  induction t1 as [|[X e x] t1 IH]; simpl; [reflexivity|].
  destruct e; simpl; rewrite IH; reflexivity.
Qed.

Lemma publish_calls_app t1 t2 :
  publish_calls (t1 ++ t2) = publish_calls t1 ++ publish_calls t2.
Proof.
  induction t1 as [|[X e x] t1 IH]; simpl; [reflexivity|].
  destruct e; simpl; rewrite IH; reflexivity.
Qed.

Lemma queried_none (f : Entry -> bool) tr :
  (forall en, f en = true -> is_HasLayer en = false) ->
  forallb f tr = true -> queried tr = [].
Proof.
  intros Hf. induction tr as [|[X e x] tr IH]; simpl; [reflexivity|].
  intros H. apply andb_prop in H as [H1 H2]. apply Hf in H1.
  destruct e; try (apply IH; exact H2). discriminate H1.
Qed.

Lemma ensured_at_none (f : Entry -> bool) hub repository tr :
  (forall en, f en = true -> is_layer_op en = false) ->
  forallb f tr = true -> ensured_at hub repository tr = [].
Proof.
  intros Hf. induction tr as [|[X e x] tr IH]; simpl; [reflexivity|].
  intros H. apply andb_prop in H as [H1 H2]. apply Hf in H1.
  destruct e; try (apply IH; exact H2); discriminate H1.
Qed.

Lemma fetch_calls_none (f : Entry -> bool) tr :
  (forall en, f en = true -> is_hub_Manifest en = false) ->
  forallb f tr = true -> fetch_calls tr = [].
Proof.
  intros Hf. induction tr as [|[X e x] tr IH]; simpl; [reflexivity|].
  intros H. apply andb_prop in H as [H1 H2]. apply Hf in H1.
  destruct e; try (apply IH; exact H2). discriminate H1.
Qed.

Lemma publish_calls_none (f : Entry -> bool) tr :
  (forall en, f en = true -> is_PutManifest en = false) ->
  forallb f tr = true -> publish_calls tr = [].
Proof.
  intros Hf. induction tr as [|[X e x] tr IH]; simpl; [reflexivity|].
  intros H. apply andb_prop in H as [H1 H2]. apply Hf in H1.
  destruct e; try (apply IH; exact H2). discriminate H1.
Qed.

Section Loop.
Context {W : Type} (h : Handler W).

(** What one [migrateLayer] adds to the readings of a trace. *)
Lemma migrateLayer_summary srcHub destHub srcRepo destRepo layer hp w :
  let r := run h (migrateLayer srcHub destHub srcRepo destRepo layer) hp w in
  queried (trace r) = [ BlobSum layer ]
  /\ ensured_at destHub destRepo (trace r)
     = match outcome r with
       | Returned None => [ BlobSum layer ]
       | _ => []
       end
  /\ count is_UploadLayer (trace r) <= count is_DownloadLayer (trace r)
  /\ count is_DownloadLayer (trace r)
     <= count (HasLayer_answered false) (trace r)
  /\ forallb (main_routed srcHub destHub srcRepo destRepo) (trace r) = true.
Proof.
  unfold migrateLayer, moveLayerUsingFile.
  exec h; rewrite ?Registry_eqb_refl, ?String.eqb_refl; cbv [count]; simpl;
    repeat split; lia.
Qed.

(** The layer loop, layer by layer: the layers before the first failure
    were migrated one after the other; then either a layer failed and the
    loop printed the failure and returned, or the rest of [main] ran. *)
Lemma main_layers_steps srcHub destHub srcRepo destRepo rest layers :
  forall hp w,
    let r := run h (main_layers srcHub destHub srcRepo destRepo layers rest)
               hp w in
    exists done ts,
      Forall2 (migrated h srcHub destHub srcRepo destRepo hp) done ts
      /\ ((exists layer later w0 msg,
             let ml := run h (migrateLayer srcHub destHub srcRepo destRepo
                                layer) hp w0 in
             layers = done ++ layer :: later
             /\ outcome ml = Returned (Some msg)
             /\ trace r
                = concat ts ++ trace ml
                  ++ [ Called (fmt_Print ("Failed to migrate image layer. "
                                          +:+ msg)) tt ]
             /\ outcome r = Returned (-1)%Z /\ heap r = hp)
          \/ (exists w',
                let rr := run h rest hp w' in
                layers = done
                /\ trace r = concat ts ++ trace rr
                /\ outcome r = outcome rr /\ heap r = heap rr)).
Proof.
  induction layers as [|layer layers IH]; intros hp w; cbn zeta.
  - exists [], []. split; [constructor|]. right. exists w. simpl. auto.
  - cbn [main_layers]. rewrite run_bind.
    destruct (migrateLayer_run h srcHub destHub srcRepo destRepo layer hp w)
      as (_ & Hh & [err Ho]).
    pose (ml := run h (migrateLayer srcHub destHub srcRepo destRepo layer)
                  hp w).
    fold ml in Hh, Ho |- *.
    unfold then_run. rewrite Ho. destruct err as [msg|]; cbv beta iota zeta.
    + exists [], []. split; [constructor|]. left.
      exists layer, layers, w, msg. fold ml. cbn zeta.
      cbn [bind call run]. destruct (h _ _ (world ml)) as [[] w1].
      cbn [trace outcome heap world logged app concat].
      rewrite Hh. auto.
    + rewrite Hh.
      destruct (IH hp (world ml)) as (done & ts & Hf & Hcase).
      exists (layer :: done), (trace ml :: ts). split.
      { constructor; [|exact Hf]. exists w. fold ml. auto. }
      cbn [trace outcome heap world concat].
      destruct Hcase as [(l & later & w0 & msg & H1 & H2 & H3 & H4 & H5)
                        |(w' & H1 & H2 & H3 & H4)].
      * left. exists l, later, w0, msg. cbn zeta in *.
        rewrite H3, H4, H5, <- app_assoc.
        repeat split; try assumption. rewrite H1. reflexivity.
      * right. exists w'. cbn zeta in *.
        rewrite H2, H3, H4, <- app_assoc.
        repeat split. rewrite H1. reflexivity.
Qed.

(** The readings of the layers migrated so far. *)
Lemma migrated_summary srcHub destHub srcRepo destRepo hp done ts :
  Forall2 (migrated h srcHub destHub srcRepo destRepo hp) done ts ->
  forallb is_layer_loop_call (concat ts) = true
  /\ queried (concat ts) = map BlobSum done
  /\ ensured_at destHub destRepo (concat ts) = map BlobSum done
  /\ count is_UploadLayer (concat ts) <= count is_DownloadLayer (concat ts)
  /\ count is_DownloadLayer (concat ts)
     <= count (HasLayer_answered false) (concat ts)
  /\ forallb (main_routed srcHub destHub srcRepo destRepo) (concat ts) = true.
Proof.
  induction 1 as [|layer t done ts (w & -> & Ho) _ IH]; cbn [concat map].
  - cbv [count]; simpl. repeat split; lia.
  - destruct IH as (I1 & I2 & I3 & I4 & I5 & I6).
    destruct (migrateLayer_summary srcHub destHub srcRepo destRepo layer hp w)
      as (S1 & S2 & S3 & S4 & S5).
    destruct (migrateLayer_run h srcHub destHub srcRepo destRepo layer hp w)
      as (K & _ & _).
    cbv zeta in *. rewrite Ho in S2.
    rewrite !forallb_app, queried_app, ensured_at_app, !count_app.
    rewrite K, I1, S1, S2, I2, I3, S5, I6. repeat split; lia.
Qed.


(** The publish step for a source manifest stored at [p], call by call. *)
Lemma main_publish_trace destHub dest p src hp w :
  hp !! p = Some src ->
  let r := run h (main_publish destHub dest p) hp w in
  let pm := destManifest_for src (Repository dest) in
  exists perr,
    trace r
    = Called (PutManifest destHub (Repository dest) (RepoTag dest) pm) perr
      :: match perr with
         | Some err =>
             [ Called (fmt_Print ("Failed to upload manifest to "
                                  +:+ URL destHub +:+ "/" +:+ Repository dest
                                  +:+ ":" +:+ RepoTag dest +:+ ". " +:+ err))
                 tt ]
         | None => []
         end
    /\ heap r = hp ++ [ pm ]
    /\ outcome r
       = Returned (match perr with Some _ => (-1)%Z | None => 0%Z end).
Proof.
  intros Hp. unfold main_publish. cbn. rewrite Hp.
  cbn. rewrite lookup_snoc. cbn. rewrite insert_snoc, lookup_snoc.
  exec_with h ltac:(cbn -[String.append] in * );
    match goal with
    | |- context [Called (PutManifest _ _ _ _) ?x] => exists x
    end; repeat split.
Qed.

(** [main] from the manifest on, call by call: the fetch failed; or a
    layer failed after some were migrated; or all layers were migrated and
    the manifest was sent. *)
Lemma main_transfer_steps srcHub destHub src dest hp w :
  let r := run h (main_transfer srcHub destHub src dest) hp w in
  (exists err,
     trace r
     = [ Called (hub_Manifest srcHub (Repository src) (RepoTag src)) (Err err);
         Called (fmt_Print ("Failed to fetch the manifest for "
                            +:+ URL srcHub +:+ "/" +:+ Repository src
                            +:+ ":" +:+ RepoTag src +:+ ". " +:+ err)) tt ]
     /\ outcome r = Returned (-1)%Z /\ heap r = hp)
  \/ (exists m done ts,
        Forall2 (migrated h srcHub destHub (Repository src) (Repository dest)
                   (hp ++ [ m ])) done ts
        /\ ((exists layer later w0 msg,
               let ml := run h (migrateLayer srcHub destHub (Repository src)
                                  (Repository dest) layer) (hp ++ [ m ]) w0 in
               FSLayers (Manifest m) = done ++ layer :: later
               /\ outcome ml = Returned (Some msg)
               /\ trace r
                  = Called (hub_Manifest srcHub (Repository src) (RepoTag src))
                      (Ok m)
                    :: concat ts ++ trace ml
                    ++ [ Called (fmt_Print ("Failed to migrate image layer. "
                                            +:+ msg)) tt ]
               /\ outcome r = Returned (-1)%Z /\ heap r = hp ++ [ m ])
            \/ (exists perr,
                  FSLayers (Manifest m) = done
                  /\ trace r
                     = Called (hub_Manifest srcHub (Repository src)
                                 (RepoTag src)) (Ok m)
                       :: concat ts
                       ++ Called (PutManifest destHub (Repository dest)
                                    (RepoTag dest)
                                    (destManifest_for m (Repository dest)))
                            perr
                       :: match perr with
                          | Some err =>
                              [ Called (fmt_Print
                                          ("Failed to upload manifest to "
                                           +:+ URL destHub +:+ "/"
                                           +:+ Repository dest +:+ ":"
                                           +:+ RepoTag dest +:+ ". " +:+ err))
                                  tt ]
                          | None => []
                          end
                  /\ outcome r
                     = Returned (match perr with
                                 | Some _ => (-1)%Z
                                 | None => 0%Z
                                 end)
                  /\ heap r
                     = hp ++ [ m; destManifest_for m (Repository dest) ]))).
Proof.
  unfold main_transfer. cbn -[main_publish main_layers String.append].
  destruct (h _ (hub_Manifest srcHub (Repository src) (RepoTag src)) w)
    as [[m|err] w0]; cbn -[main_publish main_layers String.append].
  - right. rewrite lookup_snoc.
    destruct (main_layers_steps srcHub destHub (Repository src)
                (Repository dest) (main_publish destHub dest (length hp))
                (FSLayers (Manifest m)) (hp ++ [ m ]) w0)
      as (done & ts & Hf & Hcase).
    exists m, done, ts. split; [exact Hf|].
    cbn zeta in Hcase.
    destruct Hcase as [(l & later & w1 & msg & H1 & H2 & H3 & H4 & H5)
                      |(w' & H1 & H2 & H3 & H4)].
    + left. exists l, later, w1, msg. cbn zeta.
      rewrite H3, H4, H5. auto.
    + right.
      destruct (main_publish_trace destHub dest (length hp) m (hp ++ [ m ]) w'
                  (lookup_snoc hp m)) as (perr & P1 & P2 & P3).
      cbn zeta in *. exists perr.
      rewrite H2, H3, H4, P1, P2, P3, <- app_assoc. auto.
  - left. destruct (h _ _ w0) as [[] w1]. exists err. cbn. auto.
Qed.

End Loop.

(** The connection calls add nothing to the readings of layers and
    manifests. *)
Lemma connect_not_HasLayer en :
  is_connect_call en = true -> is_HasLayer en = false.
Proof. revert en. by_kind. Qed.

Lemma connect_not_DownloadLayer en :
  is_connect_call en = true -> is_DownloadLayer en = false.
Proof. revert en. by_kind. Qed.

Lemma connect_not_UploadLayer en :
  is_connect_call en = true -> is_UploadLayer en = false.
Proof. revert en. by_kind. Qed.

Lemma connect_not_absent en :
  is_connect_call en = true -> HasLayer_answered false en = false.
Proof. revert en. by_kind. Qed.

Lemma connect_not_content en :
  is_connect_call en = true -> is_content_call en = false.
Proof. revert en. by_kind. Qed.

Lemma connect_not_published en :
  is_connect_call en = true -> PutManifest_succeeded en = false.
Proof. revert en. by_kind. Qed.

Lemma connect_not_fetch_failure en :
  is_connect_call en = true -> hub_Manifest_failed en = false.
Proof. revert en. by_kind. Qed.

Lemma connect_routed srcHub destHub srcRepo destRepo en :
  is_connect_call en = true ->
  main_routed srcHub destHub srcRepo destRepo en = true.
Proof.
  destruct en as [? [] ?]; intros H; try reflexivity; cbv in H; discriminate H.
Qed.

Lemma layer_loop_not_published en :
  is_layer_loop_call en = true -> PutManifest_succeeded en = false.
Proof. intros H. apply layer_loop_migrates in H. revert en H. by_kind. Qed.

Lemma layer_loop_not_fetch_failure en :
  is_layer_loop_call en = true -> hub_Manifest_failed en = false.
Proof. intros H. apply layer_loop_migrates in H. revert en H. by_kind. Qed.

(** The cases of a run of [main]: no repository name; a connection
    panicked or failed; the fetch failed; a layer failed; the manifest was
    sent. *)
Ltac main_split h fl hp w :=
  destruct (String.eqb_spec (Repository (srcArgs fl)) "") as [Hs|Hs];
  [ destruct (main_without_repository h fl hp w (or_introl Hs))
      as (Ho & Hh & [Ht|Ht])
  | destruct (String.eqb_spec (Repository (destArgs fl)) "") as [Hd|Hd];
    [ destruct (main_without_repository h fl hp w (or_intror Hd))
        as (Ho & Hh & [Ht|Ht])
    | pose proof (main_run h fl hp w Hs Hd) as Hrun; cbv zeta in Hrun;
      destruct (connectToRegistry_run h (srcArgs fl) hp w) as (Hk1 & _ & _);
      cbv zeta in Hk1;
      set (r1 := run h (connectToRegistry (srcArgs fl)) hp w) in *;
      destruct (outcome r1) as [[srcHub|err]|msg] eqn:Ho1;
      [ destruct (connectToRegistry_run h (destArgs fl) hp (world r1))
          as (Hk2 & _ & _);
        cbv zeta in Hk2;
        set (r2 := run h (connectToRegistry (destArgs fl)) hp (world r1)) in *;
        destruct (outcome r2) as [[destHub|err]|msg] eqn:Ho2;
        [ destruct Hrun as (Ht & Ho & Hh);
          destruct (main_transfer_steps h srcHub destHub (srcArgs fl)
                      (destArgs fl) hp (world r2))
            as [(err & Htt & Hot & Hht)
               |(m & done & ts & Hdone
                 & [(layer & later & w0 & msg & Hl & Hml & Htt & Hot & Hht)
                   |(perr & Hl & Htt & Hot & Hht)])];
          cbv zeta in Htt, Hot, Hht;
          rewrite Htt in Ht; rewrite Hot in Ho; rewrite Hht in Hh;
          clear Htt Hot Hht;
          try (pose proof (migrated_summary h _ _ _ _ _ _ _ Hdone)
                as (Sk & Sq & Se & Su & Sd & Sr));
          try (pose proof (migrateLayer_summary h srcHub destHub
                             (Repository (srcArgs fl))
                             (Repository (destArgs fl)) layer (hp ++ [ m ])
                             w0) as (Lq & Le & Lu & Ld & Lr);
               pose proof (migrateLayer_run h srcHub destHub
                             (Repository (srcArgs fl))
                             (Repository (destArgs fl)) layer (hp ++ [ m ])
                             w0) as (Lk & _ & _);
               cbv zeta in Lq, Le, Lu, Ld, Lr, Lk;
               set (ml := run h (migrateLayer srcHub destHub
                                   (Repository (srcArgs fl))
                                   (Repository (destArgs fl)) layer)
                            (hp ++ [ m ]) w0) in *;
               rewrite Hml in Le);
          try (destruct perr as [perr|]; cbv beta iota in Ht, Ho)
        | destruct Hrun as (Ht & Ho & Hh)
        | destruct Hrun as (Ht & Ho & Hh) ]
      | destruct Hrun as (Ht & Ho & Hh)
      | destruct Hrun as (Ht & Ho & Hh) ] ] ].

Section Whole.
Context {W : Type} (h : Handler W).

(** X9: over a whole run of [main] there are never more uploads than
    downloads, nor more downloads than answers that a layer is absent:
    nothing is transferred that the destination did not report
    missing. *)
Theorem main_transfers_only_absent_layers fl hp w :
  let r := run h (main fl) hp w in
  count is_UploadLayer (trace r) <= count is_DownloadLayer (trace r)
  /\ count is_DownloadLayer (trace r)
     <= count (HasLayer_answered false) (trace r).
Proof.
  cbv zeta. main_split h fl hp w; rewrite Ht.
  all: try (cbv [count]; simpl; lia).
  all: change (?a :: ?l) with ([ a ] ++ l); rewrite ?count_app.
  all: rewrite ?(count_none _ _ _ connect_not_UploadLayer Hk1),
         ?(count_none _ _ _ connect_not_DownloadLayer Hk1),
         ?(count_none _ _ _ connect_not_absent Hk1),
         ?(count_none _ _ _ connect_not_UploadLayer Hk2),
         ?(count_none _ _ _ connect_not_DownloadLayer Hk2),
         ?(count_none _ _ _ connect_not_absent Hk2).
  all: cbv [count] in *;
    cbn [List.filter length is_UploadLayer is_DownloadLayer
           HasLayer_answered] in *; lia.
Qed.


(** A run of [main] that sends the manifest: both connections succeeded,
    the manifest was fetched once from the source, every layer was queried
    and found or uploaded, and the manifest was sent once. *)
Lemma main_published fl hp w :
  let r := run h (main fl) hp w in
  let r1 := run h (connectToRegistry (srcArgs fl)) hp w in
  let r2 := run h (connectToRegistry (destArgs fl)) hp (world r1) in
  existsb is_PutManifest (trace r) = true ->
  exists srcHub destHub m,
    outcome r1 = Returned (Ok srcHub)
    /\ outcome r2 = Returned (Ok destHub)
    /\ fetched_of (trace r) = Some m
    /\ queried (trace r) = map BlobSum (FSLayers (Manifest m))
    /\ ensured_at destHub (Repository (destArgs fl)) (trace r)
       = map BlobSum (FSLayers (Manifest m))
    /\ fetch_calls (trace r)
       = [ (srcHub, Repository (srcArgs fl), RepoTag (srcArgs fl)) ]
    /\ publish_calls (trace r)
       = [ (destHub, Repository (destArgs fl), RepoTag (destArgs fl)) ].
Proof.
  cbv zeta. main_split h fl hp w; rewrite Ht; intros Hput.
  all: rewrite ?existsb_app in Hput.
  all: rewrite ?(existsb_none _ _ _ connect_not_PutManifest Hk1),
         ?(existsb_none _ _ _ connect_not_PutManifest Hk2) in Hput.
  all: cbn [existsb is_PutManifest orb app] in Hput.
  all: rewrite ?existsb_app in Hput.
  all: rewrite ?(existsb_none _ _ _ migrate_not_PutManifest Sk),
         ?(existsb_none _ _ _ migrate_not_PutManifest Lk) in Hput.
  all: try discriminate Hput.
  all: exists srcHub, destHub, m.
  all: split; [reflexivity|]; split; [reflexivity|].
  all: rewrite ?fetched_of_app, ?queried_app, ?ensured_at_app,
         ?fetch_calls_app, ?publish_calls_app.
  all: rewrite ?(queried_none _ _ connect_not_HasLayer Hk1),
         ?(queried_none _ _ connect_not_HasLayer Hk2),
         ?(fetched_of_none _ _ connect_not_hub_Manifest Hk1),
         ?(fetched_of_none _ _ connect_not_hub_Manifest Hk2),
         ?(ensured_at_none _ _ _ _ connect_not_layer_op Hk1),
         ?(ensured_at_none _ _ _ _ connect_not_layer_op Hk2),
         ?(fetch_calls_none _ _ connect_not_hub_Manifest Hk1),
         ?(fetch_calls_none _ _ connect_not_hub_Manifest Hk2),
         ?(publish_calls_none _ _ connect_not_PutManifest Hk1),
         ?(publish_calls_none _ _ connect_not_PutManifest Hk2).
  all: cbn [queried fetched_of ensured_at fetch_calls publish_calls app].
  all: rewrite ?queried_app, ?ensured_at_app, ?fetch_calls_app,
         ?publish_calls_app.
  all: rewrite ?(fetch_calls_none _ _ migrate_not_hub_Manifest Sk),
         ?(publish_calls_none _ _ migrate_not_PutManifest Sk).
  all: cbn [queried fetched_of ensured_at fetch_calls publish_calls app].
  all: rewrite Sq, Se, Hl, !app_nil_r; repeat split; reflexivity.
Qed.

(** X11: when [main] sends the manifest, every layer of the fetched
    manifest was queried, in order, and for each of them the destination
    answered that it has it or accepted its upload: the layers known to be
    at the destination are exactly the manifest's, in order. *)
Theorem manifest_sent_after_every_layer fl hp w :
  let r := run h (main fl) hp w in
  let r1 := run h (connectToRegistry (srcArgs fl)) hp w in
  let r2 := run h (connectToRegistry (destArgs fl)) hp (world r1) in
  existsb is_PutManifest (trace r) = true ->
  exists destHub m,
    outcome r2 = Returned (Ok destHub)
    /\ fetched_of (trace r) = Some m
    /\ queried (trace r) = map BlobSum (FSLayers (Manifest m))
    /\ ensured_at destHub (Repository (destArgs fl)) (trace r)
       = map BlobSum (FSLayers (Manifest m)).
Proof.
  intros r r1 r2 Hput.
  destruct (main_published fl hp w Hput)
    as (srcHub & destHub & m & _ & H2 & H3 & H4 & H5 & _).
  exists destHub, m. auto.
Qed.

(** X12: when [main] sends the manifest, it fetched it exactly once, from
    the hub of the source connection, under the source repository and tag,
    and sends it exactly once, to the hub of the destination connection,
    under the destination repository and tag; each of the four names falls
    back to [--repo] or [--tag] when its own flag is empty. *)
Theorem manifest_fetched_and_sent_once fl hp w :
  let r := run h (main fl) hp w in
  let r1 := run h (connectToRegistry (srcArgs fl)) hp w in
  let r2 := run h (connectToRegistry (destArgs fl)) hp (world r1) in
  existsb is_PutManifest (trace r) = true ->
  exists srcHub destHub,
    outcome r1 = Returned (Ok srcHub)
    /\ outcome r2 = Returned (Ok destHub)
    /\ fetch_calls (trace r)
       = [ (srcHub,
            (if String.eqb (src_repo fl) "" then repo fl else src_repo fl),
            (if String.eqb (src_tag fl) "" then tag fl else src_tag fl)) ]
    /\ publish_calls (trace r)
       = [ (destHub,
            (if String.eqb (dest_repo fl) "" then repo fl else dest_repo fl),
            (if String.eqb (dest_tag fl) "" then tag fl else dest_tag fl)) ].
Proof.
  intros r r1 r2 Hput.
  destruct (main_published fl hp w Hput)
    as (srcHub & destHub & m & H1 & H2 & _ & _ & _ & H6 & H7).
  exists srcHub, destHub. auto.
Qed.

(** X13: [main] exits with [0] or [-1].  It exits with [0] exactly when
    [PutManifest] returned [nil] or the run panicked: every failure that
    is reported gives [-1], and a panic, which the deferred exit turns
    into [0], is the only other way to [0]. *)
Theorem main_exit_code fl hp w :
  let r := run h (main fl) hp w in
  (os_Exit r = 0%Z \/ os_Exit r = (-1)%Z)
  /\ (os_Exit r = 0%Z
      <-> existsb PutManifest_succeeded (trace r) = true
          \/ exists msg, outcome r = Panicked msg).
Proof.
  cbv zeta. unfold os_Exit.
  main_split h fl hp w; rewrite Ht, Ho.
  all: rewrite ?existsb_app.
  all: rewrite ?(existsb_none _ _ _ connect_not_published Hk1),
         ?(existsb_none _ _ _ connect_not_published Hk2).
  all: cbn [existsb PutManifest_succeeded orb app].
  all: rewrite ?existsb_app.
  all: rewrite ?(existsb_none _ _ _ layer_loop_not_published Sk),
         ?(existsb_none _ _ _ layer_loop_not_published Lk).
  all: cbn [existsb PutManifest_succeeded orb app].
  all: split; [auto|]; split; intros H; eauto; try discriminate H.
  all: destruct H as [H|[msg' H]]; discriminate H.
Qed.

(** X14: when fetching the manifest fails, [main] reports it and exits
    with [-1] without any layer call, without sending a manifest and
    without having built any manifest object. *)
Theorem manifest_fetch_failure_stops fl hp w :
  let r := run h (main fl) hp w in
  existsb hub_Manifest_failed (trace r) = true ->
  os_Exit r = (-1)%Z
  /\ count is_layer_op (trace r) = 0
  /\ count is_PutManifest (trace r) = 0
  /\ heap r = hp.
Proof.
  cbv zeta. unfold os_Exit.
  main_split h fl hp w; rewrite Ht, Ho, Hh; intros Hf.
  all: rewrite ?existsb_app in Hf.
  all: rewrite ?(existsb_none _ _ _ connect_not_fetch_failure Hk1),
         ?(existsb_none _ _ _ connect_not_fetch_failure Hk2) in Hf.
  all: cbn [existsb hub_Manifest_failed orb app] in Hf.
  all: rewrite ?existsb_app in Hf.
  all: rewrite ?(existsb_none _ _ _ layer_loop_not_fetch_failure Sk),
         ?(existsb_none _ _ _ layer_loop_not_fetch_failure Lk) in Hf.
  all: try discriminate Hf.
  rewrite !count_app.
  rewrite (count_none _ _ _ connect_not_layer_op Hk1),
    (count_none _ _ _ connect_not_layer_op Hk2),
    (count_none _ _ _ connect_not_PutManifest Hk1),
    (count_none _ _ _ connect_not_PutManifest Hk2).
  repeat split.
Qed.

(** X15: [main] reads or writes registry content only after both
    connections succeeded, and then every such call goes where it should:
    manifest fetch and layer downloads to the hub of the source connection
    under the source repository; existence queries, uploads and the
    manifest to the hub of the destination connection under the
    destination repository.  The source is never written to. *)
Theorem main_routes_content_calls fl hp w :
  let r := run h (main fl) hp w in
  let r1 := run h (connectToRegistry (srcArgs fl)) hp w in
  let r2 := run h (connectToRegistry (destArgs fl)) hp (world r1) in
  existsb is_content_call (trace r) = true ->
  exists srcHub destHub,
    outcome r1 = Returned (Ok srcHub)
    /\ outcome r2 = Returned (Ok destHub)
    /\ forallb (main_routed srcHub destHub (Repository (srcArgs fl))
                  (Repository (destArgs fl))) (trace r) = true.
Proof.
  cbv zeta. main_split h fl hp w; rewrite Ht; intros Hc.
  all: rewrite ?existsb_app in Hc.
  all: rewrite ?(existsb_none _ _ _ connect_not_content Hk1),
         ?(existsb_none _ _ _ connect_not_content Hk2) in Hc.
  all: try discriminate Hc.
  all: exists srcHub, destHub.
  all: split; [reflexivity|]; split; [reflexivity|].
  all: rewrite !forallb_app.
  all: rewrite (forallb_weaken _ _ _ (connect_routed _ _ _ _) Hk1),
         (forallb_weaken _ _ _ (connect_routed _ _ _ _) Hk2).
  all: cbn [forallb main_routed andb app].
  all: rewrite ?forallb_app.
  all: cbn [forallb main_routed andb app].
  all: rewrite ?Registry_eqb_refl, ?String.eqb_refl, ?Sr, ?Lr; reflexivity.
Qed.
End Whole.

(** ** Connecting *)

Section Connecting.
Context {W : Type} (h : Handler W).

(** X16: when a call of the credential exchange returns an error (the
    session, the token request, or the decoding), [connectToRegistry]
    returns an error without building a registry client and without any
    ping. *)
Theorem credential_exchange_failure_stops args hp w :
  let r := run h (connectToRegistry args) hp w in
  existsb exchange_failed (trace r) = true ->
  (exists err, outcome r = Returned (Err err))
  /\ endpoint_of (trace r) = None
  /\ count is_Ping (trace r) = 0.
Proof.
  unfold connectToRegistry, connectToRegistry_credentials.
  destruct (Regexp.FindAllStringSubmatch (RegistryURL args))
    as [|m0 ms] eqn:Hm.
  - exec_connect h; intros H; discriminate H.
  - destruct (FindAllStringSubmatch_first _ _ _ Hm) as (whole & a & r & ->).
    exec_connect h; intros H; try discriminate H; repeat split; eauto.
Qed.

(** X17: when [connectToRegistry] returns a registry, its last two calls
    are the [registry.New] that returned this registry, on the endpoint of
    the connection, and a ping of it that returned [nil]. *)
Theorem connectToRegistry_returns_pinged_registry args hp w hub :
  let r := run h (connectToRegistry args) hp w in
  outcome r = Returned (Ok hub) ->
  exists url username password,
    endpoint_of (trace r) = Some (url, username, password)
    /\ [ Called (registry_New url username password) (Ok hub);
         Called (Ping hub) None ] `suffix_of` trace r.
Proof.
  unfold connectToRegistry, connectToRegistry_credentials.
  destruct (Regexp.FindAllStringSubmatch (RegistryURL args))
    as [|m0 ms] eqn:Hm;
    [|destruct (FindAllStringSubmatch_first _ _ _ Hm) as (whole & a & r & ->)].
  all: exec_connect h; intros H; try discriminate H.
  all: injection H as <-; do 3 eexists; split; [reflexivity|].
  all: match goal with
       | |- ?s `suffix_of` ?l =>
           exists (take (length l - length s) l); reflexivity
       end.
Qed.

(** X18: when [registry.New] fails, [connectToRegistry] returns an error
    that names the original URL, also when the client was to be built on
    a proxy endpoint, and it does not ping. *)
Theorem registry_New_failure_names_original_url args hp w :
  let r := run h (connectToRegistry args) hp w in
  existsb registry_New_failed (trace r) = true ->
  (exists err,
     outcome r
     = Returned (Err ("Failed to create registry connection for "
                      +:+ RegistryURL args +:+ ". " +:+ err)))
  /\ count is_Ping (trace r) = 0.
Proof.
  unfold connectToRegistry, connectToRegistry_credentials.
  destruct (Regexp.FindAllStringSubmatch (RegistryURL args))
    as [|m0 ms] eqn:Hm;
    [|destruct (FindAllStringSubmatch_first _ _ _ Hm) as (whole & a & r & ->)].
  all: exec_connect h; intros H; try discriminate H; split; eauto.
Qed.

(** X19: when the token request succeeds with no authorization data,
    [connectToRegistry] panics on [AuthorizationData[0]]: it returns
    neither an error nor a registry, and builds no client. *)
Theorem empty_authorization_data_panics args hp w :
  let r := run h (connectToRegistry args) hp w in
  existsb no_authorization_data (trace r) = true ->
  outcome r = Panicked "runtime error: index out of range"
  /\ endpoint_of (trace r) = None.
Proof.
  unfold connectToRegistry, connectToRegistry_credentials.
  destruct (Regexp.FindAllStringSubmatch (RegistryURL args))
    as [|m0 ms] eqn:Hm;
    [|destruct (FindAllStringSubmatch_first _ _ _ Hm) as (whole & a & r & ->)].
  all: exec_connect h; intros H; try discriminate H; split; reflexivity.
Qed.

End Connecting.

(** ** Which URLs are managed registries *)

Lemma length_append (a b : string) :
  String.length (a +:+ b) = String.length a + String.length b.
Proof. induction a as [|c a IH]; simpl; [reflexivity | rewrite IH; reflexivity]. Qed.

(** The first match found is the one that starts leftmost. *)
Lemma scan_first_leftmost url m ms :
  Regexp.scan url 0 = m :: ms ->
  exists pre suf,
    url = pre +:+ suf
    /\ Regexp.match_here suf = Some m
    /\ forall pre' suf',
         url = pre' +:+ suf' -> String.length pre' < String.length pre ->
         Regexp.match_here suf' = None.
Proof.
  induction url as [|c url IH]; simpl; [discriminate|].
  destruct (Regexp.match_here (String c url)) as [m'|] eqn:E.
  - intros H. injection H as -> _. exists "", (String c url).
    split; [reflexivity|]. split; [exact E|].
    intros pre' suf' _ Hlt. simpl in Hlt. lia.
  - intros H. destruct (IH H) as (pre & suf & -> & Hm & Hleft).
    exists (String c pre), suf. split; [reflexivity|]. split; [exact Hm|].
    intros pre' suf' Hs Hlt. destruct pre' as [|x pre'].
    + change ("" +:+ suf') with suf' in Hs. subst suf'. exact E.
    + change (String x pre' +:+ suf') with (String x (pre' +:+ suf')) in Hs.
      injection Hs as _ Hs. apply (Hleft pre' suf' Hs). simpl in Hlt. lia.
Qed.

(** X20: the account and the region [connectToRegistry] uses are those of
    the leftmost place of the URL where the pattern matches: twelve digits,
    [.dkr.ecr.], a non-empty run of letters, digits, [_] and [-], and
    [.amazonaws.com]; text before and after is allowed. *)
Theorem first_match_is_leftmost_occurrence url m ms :
  Regexp.FindAllStringSubmatch url = m :: ms ->
  exists pre account_id region rest,
    m = [ account_id +:+ ".dkr.ecr." +:+ region +:+ ".amazonaws.com";
          account_id; region ]
    /\ url = pre +:+ account_id +:+ ".dkr.ecr." +:+ region
             +:+ ".amazonaws.com" +:+ rest
    /\ String.length account_id = 12
    /\ Strings.all_bytes Regexp.is_digit account_id = true
    /\ region <> ""
    /\ Strings.all_bytes Regexp.is_region_byte region = true
    /\ forall pre' suf',
         url = pre' +:+ suf' -> String.length pre' < String.length pre ->
         Regexp.match_here suf' = None.
Proof.
  unfold Regexp.FindAllStringSubmatch. intros H.
  destruct (scan_first_leftmost url m ms H) as (pre & suf & -> & Hm & Hleft).
  destruct (match_here_sound suf m Hm)
    as (a & r & rest & -> & Hlen & Hdig & Hne & Hreg & ->).
  exists pre, a, r, rest. repeat split; assumption.
Qed.

(** X21: a URL is treated as a managed registry exactly when it contains,
    anywhere, twelve digits followed by [.dkr.ecr.], a non-empty run of
    letters, digits, [_] and [-], and [.amazonaws.com]; a scheme before
    the host or a path after it does not matter. *)
Theorem managed_registry_iff_pattern_occurs url :
  Regexp.FindAllStringSubmatch url <> []
  <-> exists pre account_id region rest,
        url = pre +:+ account_id +:+ ".dkr.ecr." +:+ region
              +:+ ".amazonaws.com" +:+ rest
        /\ String.length account_id = 12
        /\ Strings.all_bytes Regexp.is_digit account_id = true
        /\ region <> ""
        /\ Strings.all_bytes Regexp.is_region_byte region = true.
Proof.
  split.
  - destruct (Regexp.FindAllStringSubmatch url) as [|m ms] eqn:E;
      [congruence|]. intros _.
    destruct (scan_first_leftmost url m ms E) as (pre & suf & -> & Hm & _).
    destruct (match_here_sound suf m Hm)
      as (a & r & rest & _ & Hl & Hd & Hn & Hr & ->).
    exists pre, a, r, rest. auto.
  - intros (pre & a & r & rest & Hu & Hl & Hd & Hn & Hr) Hnil.
    pose proof (proj1 (FindAllStringSubmatch_none url) Hnil pre _ Hu) as Hno.
    rewrite (match_here_complete a r rest Hl Hd Hn Hr) in Hno.
    discriminate Hno.
Qed.

(** ** The flags *)

Lemma last_byte_app (p s : string) :
  s <> "" -> last_byte (p +:+ s) = last_byte s.
Proof.
  intros Hs. induction p as [|c p IH]; [reflexivity|].
  change (String c p +:+ s) with (String c (p +:+ s)).
  cbn [last_byte]. destruct (p +:+ s) eqn:E; [|exact IH].
  apply (f_equal String.length) in E. rewrite length_append in E.
  destruct s; [congruence|]. simpl in E. lia.
Qed.

Lemma append_cancel_r (p q s : string) : p +:+ s = q +:+ s -> p = q.
Proof.
  revert q. induction p as [|c p IH]; intros q H.
  - destruct q as [|d q]; [reflexivity|].
    apply (f_equal String.length) in H. rewrite !length_append in H.
    simpl in H. lia.
  - destruct q as [|d q].
    + apply (f_equal String.length) in H. rewrite !length_append in H.
      simpl in H. lia.
    + change (String c (p +:+ s) = String d (q +:+ s)) in H.
      injection H as -> H. rewrite (IH q H). reflexivity.
Qed.

(** The three names of one prefix differ from those of another prefix. *)
Ltac flag_names_differ :=
  match goal with
  | H : ?p +:+ ?s = ?q +:+ ?s |- _ =>
      apply append_cancel_r in H; congruence
  | H : ?p +:+ ?s = ?q +:+ ?t |- _ =>
      apply (f_equal last_byte) in H;
      rewrite !last_byte_app in H by discriminate; discriminate H
  | H : ?s = ?p +:+ ?t |- _ =>
      apply (f_equal last_byte) in H;
      rewrite last_byte_app in H by discriminate; discriminate H
  | H : ?p +:+ ?t = ?s |- _ =>
      apply (f_equal last_byte) in H;
      rewrite last_byte_app in H by discriminate; discriminate H
  | H : ?s = ?p +:+ ?t |- _ =>
      apply (f_equal String.length) in H; rewrite !length_append in H;
      simpl in H; lia
  | H : ?p +:+ ?t = ?s |- _ =>
      apply (f_equal String.length) in H; rewrite !length_append in H;
      simpl in H; lia
  end.

(** X22: [buildRegistryArguments] adds three flags after those already
    there and returns their pointers in the fields they are named after;
    called for two different prefixes, it gives six flags with six
    different names, none of which is [repo] or [tag]. *)
Theorem buildRegistryArguments_flags_do_not_collide p d q e app :
  p <> q ->
  let (argsP, app1) := buildRegistryArguments p d app in
  let (argsQ, app2) := buildRegistryArguments q e app1 in
  app2 = app ++ [ (p +:+ "-url", "URL of " +:+ d +:+ " registry");
                  (p +:+ "-repo", "Name of the " +:+ d +:+ " repository");
                  (p +:+ "-tag", "Name of the " +:+ d +:+ " tag");
                  (q +:+ "-url", "URL of " +:+ e +:+ " registry");
                  (q +:+ "-repo", "Name of the " +:+ e +:+ " repository");
                  (q +:+ "-tag", "Name of the " +:+ e +:+ " tag") ]
  /\ List.NoDup [ RegistryURL argsP; Repository argsP; RepoTag argsP;
                  RegistryURL argsQ; Repository argsQ; RepoTag argsQ;
                  "repo"; "tag" ].
Proof.
  intros Hpq. unfold buildRegistryArguments, kingpin_Flag.
  cbn [RegistryURL Repository RepoTag].
  split; [rewrite <- !app_assoc; reflexivity|].
  repeat (constructor;
          [cbn [In]; intros H;
           repeat (destruct H as [H|H];
                   [first [flag_names_differ | discriminate H]|]);
           contradiction|]).
  constructor.
Qed.

(** ** The further properties on concrete runs *)

Lemma migrateLayer_query_failure_witness :
  let r := run (double query_fault)
             (migrateLayer src_hub dest_hub "team/app" "mirror/app" layer1)
             [] empty_world in
  existsb HasLayer_failed (trace r) = true
  /\ exists err, outcome r = Returned (Some ("Failure while checking if the destination registry contained an image layer. " +:+ err)).
Proof.
  cbv zeta. split; [reflexivity|].
  destruct (migrateLayer_query_failure (double query_fault) src_hub dest_hub
              "team/app" "mirror/app" layer1 [] empty_world eq_refl)
    as (err & Ho & _).
  exists err. exact Ho.
Defined.

Lemma migrateLayer_TempFile_failure_witness :
  let r := run (double tempfile_fault)
             (migrateLayer src_hub dest_hub "team/app" "mirror/app" layer1)
             [] empty_world in
  existsb TempFile_failed (trace r) = true
  /\ count is_transfer_call (trace r) = 0
  /\ count is_os_Remove (trace r) = 0.
Proof.
  cbv zeta. split; [reflexivity|].
  apply (migrateLayer_TempFile_failure (double tempfile_fault) src_hub
           dest_hub "team/app" "mirror/app" layer1 [] empty_world eq_refl).
Defined.

Lemma moveLayerUsingFile_nil_order_witness :
  let mv := run (double no_faults)
              (moveLayerUsingFile src_hub dest_hub "team/app" "mirror/app"
                 layer1 temp_file) [] empty_world in
  outcome mv = Returned None /\ length (trace mv) = 7.
Proof.
  cbv zeta. split; [reflexivity|].
  destruct (moveLayerUsingFile_nil_order (double no_faults) src_hub dest_hub
              "team/app" "mirror/app" layer1 temp_file [] empty_world eq_refl)
    as (rd & n & c1 & c2 & f & c3 & Ht).
  rewrite Ht. reflexivity.
Defined.

Lemma migrateLayer_upload_failure_witness :
  let r := run (double (faulty false false false true false []))
             (migrateLayer src_hub dest_hub "team/app" "mirror/app" layer1)
             [] empty_world in
  existsb (UploadLayer_returned false) (trace r) = true
  /\ count is_File_Close (trace r) = 1
  /\ count is_os_Remove (trace r) = 1.
Proof.
  cbv zeta. split; [reflexivity|].
  apply (migrateLayer_upload_failure
           (double (faulty false false false true false [])) src_hub
           dest_hub "team/app" "mirror/app" layer1 [] empty_world eq_refl).
Defined.

(** Scenario A again: the manifest is sent after both layers are known to
    be at the destination. *)
Lemma manifest_sent_after_every_layer_witness :
  let r := run (double no_faults) (main flags) [] world_with_d1 in
  existsb is_PutManifest (trace r) = true
  /\ exists destHub,
       ensured_at destHub "mirror/app" (trace r)
       = [ "sha256:d1"; "sha256:d2" ].
Proof.
  cbv zeta. split; [reflexivity|].
  destruct (manifest_sent_after_every_layer (double no_faults) flags []
              world_with_d1 eq_refl)
    as (destHub & m & _ & Hf & _ & He).
  exists destHub. injection Hf as <-. exact He.
Defined.

Lemma manifest_fetched_and_sent_once_witness :
  let r := run (double no_faults) (main flags) [] world_with_d1 in
  existsb is_PutManifest (trace r) = true
  /\ exists srcHub destHub,
       fetch_calls (trace r) = [ (srcHub, "team/app", "latest") ]
       /\ publish_calls (trace r) = [ (destHub, "mirror/app", "stable") ].
Proof.
  cbv zeta. split; [reflexivity|].
  destruct (manifest_fetched_and_sent_once (double no_faults) flags []
              world_with_d1 eq_refl)
    as (srcHub & destHub & _ & _ & Hf & Hp).
  exists srcHub, destHub. split; assumption.
Defined.

Lemma manifest_fetch_failure_stops_witness :
  let r := run (without_manifest (double no_faults)) (main flags) []
             empty_world in
  existsb hub_Manifest_failed (trace r) = true
  /\ os_Exit r = (-1)%Z
  /\ count is_layer_op (trace r) = 0.
Proof.
  cbv zeta. split; [reflexivity|].
  destruct (manifest_fetch_failure_stops (without_manifest (double no_faults))
              flags [] empty_world eq_refl) as (He & Hl & _).
  split; assumption.
Defined.

Lemma main_routes_content_calls_witness :
  let r := run (double no_faults) (main flags) [] world_with_d1 in
  existsb is_content_call (trace r) = true
  /\ exists srcHub destHub,
       forallb (main_routed srcHub destHub "team/app" "mirror/app") (trace r)
       = true.
Proof.
  cbv zeta. split; [reflexivity|].
  destruct (main_routes_content_calls (double no_faults) flags []
              world_with_d1 eq_refl)
    as (srcHub & destHub & _ & _ & Hr).
  exists srcHub, destHub. exact Hr.
Defined.

(** A token the decoder refuses. *)
Lemma credential_exchange_failure_stops_witness :
  let r := run (double (with_token "####" no_faults))
             (connectToRegistry ecr_args) [] empty_world in
  existsb exchange_failed (trace r) = true
  /\ endpoint_of (trace r) = None
  /\ count is_Ping (trace r) = 0.
Proof.
  cbv zeta. split; [reflexivity|].
  destruct (credential_exchange_failure_stops
              (double (with_token "####" no_faults)) ecr_args [] empty_world
              eq_refl) as (_ & He & Hp).
  split; assumption.
Defined.

Lemma connectToRegistry_returns_pinged_registry_witness :
  let r := run (double no_faults) (connectToRegistry (srcArgs flags)) []
             empty_world in
  outcome r = Returned (Ok src_hub)
  /\ exists url username password,
       endpoint_of (trace r) = Some (url, username, password).
Proof.
  cbv zeta. split; [reflexivity|].
  destruct (connectToRegistry_returns_pinged_registry (double no_faults)
              (srcArgs flags) [] empty_world src_hub eq_refl)
    as (url & u & p & He & _).
  exists url, u, p. exact He.
Defined.

Lemma registry_New_failure_names_original_url_witness :
  let r := run (double no_faults) (connectToRegistry args_without_url) []
             empty_world in
  existsb registry_New_failed (trace r) = true
  /\ count is_Ping (trace r) = 0.
Proof.
  cbv zeta. split; [reflexivity|].
  apply (registry_New_failure_names_original_url (double no_faults)
           args_without_url [] empty_world eq_refl).
Defined.

Lemma empty_authorization_data_panics_witness :
  let r := run (without_authorization_data (double no_faults))
             (connectToRegistry ecr_args) [] empty_world in
  existsb no_authorization_data (trace r) = true
  /\ outcome r = Panicked "runtime error: index out of range".
Proof.
  cbv zeta. split; [reflexivity|].
  apply (empty_authorization_data_panics
           (without_authorization_data (double no_faults)) ecr_args []
           empty_world eq_refl).
Defined.

(** Scenario C: the groups of the only match. *)
Lemma first_match_is_leftmost_occurrence_witness :
  exists pre account_id region rest,
    "123456789012.dkr.ecr.us-east-1.amazonaws.com"
    = pre +:+ account_id +:+ ".dkr.ecr." +:+ region +:+ ".amazonaws.com"
      +:+ rest
    /\ String.length account_id = 12.
Proof.
  destruct (first_match_is_leftmost_occurrence
              "123456789012.dkr.ecr.us-east-1.amazonaws.com"
              [ "123456789012.dkr.ecr.us-east-1.amazonaws.com";
                "123456789012"; "us-east-1" ] [] eq_refl)
    as (pre & a & r & rest & _ & Hu & Hl & _).
  exists pre, a, r, rest. split; assumption.
Defined.

(** The flags of [main]: the two registries, then [--repo] and [--tag]. *)
Lemma buildRegistryArguments_flags_do_not_collide_witness :
  "src" <> "dest" /\ List.NoDup (map fst main_flags).
Proof.
  assert (H : "src" <> "dest") by discriminate.
  split; [exact H|].
  exact (proj2 (buildRegistryArguments_flags_do_not_collide
                  "src" "source" "dest" "destination" [] H)).
Defined.

(** ** A failed source connection *)

(** X23: with both repository names given, when the connection to the
    source returns an error, [main] reports it and exits with [-1] having
    made the calls of that connection only: the destination is not even
    connected to. *)
Theorem source_failure_leaves_destination_alone
    {W : Type} (h : Handler W) fl hp w err :
  let r := run h (main fl) hp w in
  let r1 := run h (connectToRegistry (srcArgs fl)) hp w in
  Repository (srcArgs fl) <> "" -> Repository (destArgs fl) <> "" ->
  outcome r1 = Returned (Err err) ->
  trace r = trace r1 ++ [ Called (fmt_Print (src_failure +:+ err)) tt ]
  /\ os_Exit r = (-1)%Z
  /\ count is_registry_New (trace r) <= 1
  /\ count is_content_call (trace r) = 0.
Proof.
  intros r r1 Hs Hd Ho1.
  pose proof (main_run h fl hp w Hs Hd) as Hrun. cbv zeta in Hrun.
  fold r r1 in Hrun. rewrite Ho1 in Hrun. destruct Hrun as (Ht & Ho & _).
  destruct (connectToRegistry_run h (srcArgs fl) hp w) as (Hk & _ & _).
  cbv zeta in Hk. fold r1 in Hk.
  split; [exact Ht|]. split; [unfold os_Exit; rewrite Ho; reflexivity|].
  rewrite Ht, !count_app.
  rewrite (count_none _ _ _ connect_not_content Hk).
  split; [|reflexivity].
  assert (Hn : count is_registry_New (trace r1) <= 1).
  { subst r1. clear. unfold connectToRegistry, connectToRegistry_credentials.
    destruct (Regexp.FindAllStringSubmatch (RegistryURL (srcArgs fl)))
      as [|m0 ms] eqn:Hm;
      [|destruct (FindAllStringSubmatch_first _ _ _ Hm)
          as (whole & a & r & ->)].
    all: exec_connect h; cbv [count]; simpl; lia. }
  cbv [count] in *. simpl. lia.
Qed.

(** The source does not answer the ping. *)
Lemma source_failure_leaves_destination_alone_witness :
  let f := faulty false false false false false [ "https://src.example.com" ] in
  let r := run (double f) (main flags) [] empty_world in
  os_Exit r = (-1)%Z /\ count is_registry_New (trace r) <= 1.
Proof.
  cbv zeta.
  assert (Hs : Repository (srcArgs flags) <> "") by discriminate.
  assert (Hd : Repository (destArgs flags) <> "") by discriminate.
  destruct (source_failure_leaves_destination_alone
              (double (faulty false false false false false
                         [ "https://src.example.com" ]))
              flags [] empty_world _ Hs Hd eq_refl)
    as (_ & He & Hn & _).
  split; assumption.
Defined.
